(** * Solar-boat connector: telemetry state derivation and two-tier persistence

    Shallow embedding of [app/models/request_models.py]: the [Telemetry],
    [PointSet] and [State] models, the derivation of a [State] from a
    sample and the previous [State] ([update_from_previous], [count_laps],
    [from_telemetry]), the persistence policy ([save]) and the operator
    operations ([set_point], [reset_point], [remove_point],
    [reset_distance], [clear_distance]).

    Python values are modelled as follows.
    - [float] is an IEEE-754 binary64 number: [spec_float] with the
      operations of [SpecFloat] at precision 53 and maximal exponent 1024.
    - [int] is unbounded: [Z].
    - [datetime] is an instant counted in microseconds, [timedelta] is the
      normalised triple (days, seconds, microseconds) of CPython.
    - Exceptions are values of [Exn]; an awaited coroutine is a function
      from the stores to a result and the stores after it. *)

From Stdlib Require Import ZArith List Bool Lia.
From Stdlib Require Import SpecFloat.
From Stdlib Require String.
Import ListNotations.
Local Open Scope Z_scope.

(** ** Python floats *)

Module PyFloat.

Definition prec : Z := 53.
Definition emax : Z := 1024.

Definition float : Type := spec_float.

(** [float(n)] for an [int] n; exact for |n| < 2^53. *)
Definition of_int (n : Z) : float := binary_normalize prec emax n 0 false.

Definition zero : float := S754_zero false.
Definition one : float := of_int 1.

Definition add (x y : float) : float := SFadd prec emax x y.
Definition div (x y : float) : float := SFdiv prec emax x y.

(** [x < y], [x <= y], [x > y], [x >= y], [x == y] *)
Definition ltb (x y : float) : bool := SFltb x y.
Definition leb (x y : float) : bool := SFleb x y.
Definition gtb (x y : float) : bool := SFltb y x.
Definition geb (x y : float) : bool := SFleb y x.
Definition eqb (x y : float) : bool := SFeqb x y.

(** [a / b] for two [int]s (true division).  CPython rounds the exact
    quotient once; for operands below 2^53 that is the binary64 division
    of the two exactly converted operands. *)
Definition int_truediv (a b : Z) : float := div (of_int a) (of_int b).

(** The builtin [max(a, b)] on two numbers: the first argument is kept
    unless the second one is strictly greater. *)
Definition max (a b : float) : float := if gtb b a then b else a.

(** A value a well-formed distance can take: a valid binary64 number that
    is neither NaN nor negative. *)
Definition nonneg (x : float) : Prop :=
  match x with
  | S754_zero _ => True
  | S754_infinity s => s = false
  | S754_nan => False
  | S754_finite s m e => s = false /\ bounded prec emax m e = true
  end.

(** Neither NaN nor carrying a minus sign. *)
Definition unsigned (x : float) : Prop :=
  match x with
  | S754_nan => False
  | S754_zero s | S754_infinity s | S754_finite s _ _ => s = false
  end.

Definition nonnegb (x : float) : bool :=
  match x with
  | S754_zero _ => true
  | S754_infinity s => negb s
  | S754_nan => false
  | S754_finite s m e => negb s && bounded prec emax m e
  end.

End PyFloat.

Abbreviation float := PyFloat.float.

(** ** datetime and timedelta *)

Module Datetime.

(** An instant, in microseconds from a fixed origin.  All timestamps of a
    run are of one kind (all naive or all aware), as subtraction and
    comparison in the source require. *)
Definition datetime : Type := Z.

Record timedelta : Type := mk_timedelta {
  days : Z;
  seconds : Z;
  microseconds : Z
}.

Definition US_PER_SECOND : Z := 1000000.
Definition SECONDS_PER_DAY : Z := 86400.

(** CPython keeps 0 <= seconds < 86400 and 0 <= microseconds < 10^6 and
    lets [days] carry the sign. *)
Definition normalize (us : Z) : timedelta :=
  {| days := us / (US_PER_SECOND * SECONDS_PER_DAY);
     seconds := (us / US_PER_SECOND) mod SECONDS_PER_DAY;
     microseconds := us mod US_PER_SECOND |}.

(** [a - b] on datetimes *)
Definition sub (a b : datetime) : timedelta := normalize (a - b).

(** [timedelta(seconds=n)] for an [int] n *)
Definition of_seconds (n : Z) : timedelta := normalize (n * US_PER_SECOND).

(** [timedelta.total_seconds()] would be this number of microseconds over 10^6. *)
Definition total_microseconds (d : timedelta) : Z :=
  (days d * SECONDS_PER_DAY + seconds d) * US_PER_SECOND + microseconds d.

(** Comparison of timedeltas is comparison of the triples. *)
Definition compare (a b : timedelta) : comparison :=
  match days a ?= days b with
  | Eq => match seconds a ?= seconds b with
          | Eq => microseconds a ?= microseconds b
          | c => c
          end
  | c => c
  end.

Definition gtb (a b : timedelta) : bool :=
  match compare a b with Gt => true | _ => false end.

(** [a < b] on datetimes *)
Definition ltb (a b : datetime) : bool := a <? b.

End Datetime.

Abbreviation datetime := Datetime.datetime.

(** ** Models *)

Inductive TelemetrySaveStatus : Type :=
  | TEMP_SAVED
  | PERM_SAVED
  | FAILED.

Module Telemetry.
Record t : Type := mk {
  created_at : datetime;
  controller_watts : Z;
  time_to_go : Z;
  controller_volts : float;
  MPPT_volts : float;
  MPPT_watts : float;
  motor_temp : float;
  motor_revols : float;
  position_lat : float;
  position_lng : float
}.
End Telemetry.

Record PointSet : Type := mk_PointSet {
  lng : float;
  lat : float
}.

Record State : Type := mk_State {
  created_at : datetime;
  controller_watts : Z;
  time_to_go : Z;
  controller_volts : float;
  MPPT_volts : float;
  MPPT_watts : float;
  motor_temp : float;
  motor_revols : float;
  position_lat : float;
  position_lng : float;
  speed : float;
  distance_travelled : float;
  laps : Z;
  lap_point_lat : option float;
  lap_point_lng : option float
}.

(** Attribute assignments [self.f = v] on a [State]. *)
Definition set_speed (v : float) (s : State) : State :=
  mk_State (created_at s) (controller_watts s) (time_to_go s)
    (controller_volts s) (MPPT_volts s) (MPPT_watts s) (motor_temp s)
    (motor_revols s) (position_lat s) (position_lng s)
    v (distance_travelled s) (laps s) (lap_point_lat s) (lap_point_lng s).

Definition set_distance_travelled (v : float) (s : State) : State :=
  mk_State (created_at s) (controller_watts s) (time_to_go s)
    (controller_volts s) (MPPT_volts s) (MPPT_watts s) (motor_temp s)
    (motor_revols s) (position_lat s) (position_lng s)
    (speed s) v (laps s) (lap_point_lat s) (lap_point_lng s).

Definition set_laps (v : Z) (s : State) : State :=
  mk_State (created_at s) (controller_watts s) (time_to_go s)
    (controller_volts s) (MPPT_volts s) (MPPT_watts s) (motor_temp s)
    (motor_revols s) (position_lat s) (position_lng s)
    (speed s) (distance_travelled s) v (lap_point_lat s) (lap_point_lng s).

Definition set_lap_point_lat (v : option float) (s : State) : State :=
  mk_State (created_at s) (controller_watts s) (time_to_go s)
    (controller_volts s) (MPPT_volts s) (MPPT_watts s) (motor_temp s)
    (motor_revols s) (position_lat s) (position_lng s)
    (speed s) (distance_travelled s) (laps s) v (lap_point_lng s).

Definition set_lap_point_lng (v : option float) (s : State) : State :=
  mk_State (created_at s) (controller_watts s) (time_to_go s)
    (controller_volts s) (MPPT_volts s) (MPPT_watts s) (motor_temp s)
    (motor_revols s) (position_lat s) (position_lng s)
    (speed s) (distance_travelled s) (laps s) (lap_point_lat s) v.

(** [State] built from the fields of [telemetry.dict()]: the ten sample
    fields are copied, the other five take their defaults. *)
Definition State_of_telemetry (t : Telemetry.t) : State :=
  {| created_at := Telemetry.created_at t;
     controller_watts := Telemetry.controller_watts t;
     time_to_go := Telemetry.time_to_go t;
     controller_volts := Telemetry.controller_volts t;
     MPPT_volts := Telemetry.MPPT_volts t;
     MPPT_watts := Telemetry.MPPT_watts t;
     motor_temp := Telemetry.motor_temp t;
     motor_revols := Telemetry.motor_revols t;
     position_lat := Telemetry.position_lat t;
     position_lng := Telemetry.position_lng t;
     speed := PyFloat.zero;
     distance_travelled := PyFloat.zero;
     laps := 0;
     lap_point_lat := None;
     lap_point_lng := None |}.

(** The sample fields of a [State], as a sample. *)
Definition sample_of (s : State) : Telemetry.t :=
  Telemetry.mk (created_at s) (controller_watts s) (time_to_go s)
    (controller_volts s) (MPPT_volts s) (MPPT_watts s) (motor_temp s)
    (motor_revols s) (position_lat s) (position_lng s).

(** A position is a pair (latitude, longitude). *)
Definition coord : Type := (float * float)%type.

Definition position (s : State) : coord := (position_lat s, position_lng s).

(** The lap anchor: present when both coordinates are. *)
Definition lapAnchor (s : State) : option coord :=
  match lap_point_lat s, lap_point_lng s with
  | Some la, Some lo => Some (la, lo)
  | _, _ => None
  end.

(** ** Exceptions, stores and awaited computations *)

Inductive Exn : Type :=
  | FileNotFoundError
  | ValidationError.

Inductive Result (A : Type) : Type :=
  | Ok (a : A)
  | Raise (e : Exn).
Arguments Ok {A} a.
Arguments Raise {A} e.

(** A write that reached one of the two stores. *)
Inductive StoreOp : Type :=
  | RedisSet (s : State)
  | PgSave (s : State).

(** The hot slot (the value under [CURRENT_STATE_KEY], decoded), the
    durable log (oldest record first) and the writes performed so far
    (oldest first). *)
Record World : Type := mk_World {
  hot : option State;
  durable : list State;
  writes : list StoreOp
}.

Definition M (A : Type) : Type := World -> Result A * World.

Definition ret {A} (a : A) : M A := fun w => (Ok a, w).

Definition bind {A B} (c : M A) (k : A -> M B) : M B :=
  fun w =>
    match c w with
    | (Ok a, w') => k a w'
    | (Raise e, w') => (Raise e, w')
    end.

Definition raise {A} (e : Exn) : M A := fun w => (Raise e, w).

(** [try: x = body / except FileNotFoundError: handler] followed by the
    rest of the function, [rest x]. *)
Definition try_except_FileNotFoundError {A B}
    (body : M A) (handler : M B) (rest : A -> M B) : M B :=
  fun w =>
    match body w with
    | (Ok a, w') => rest a w'
    | (Raise FileNotFoundError, w') => handler w'
    | (Raise e, w') => (Raise e, w')
    end.

Notation "x <- c ;; k" := (bind c (fun x => k))
  (at level 61, c at next level, right associativity).
Notation "c ;;; k" := (bind c (fun _ => k))
  (at level 61, right associativity).

(** Modelled from the spec: [store.redis.RedisDB] is not among the
    sources.  HotStateStore is a single slot: [get] returns the State it
    holds or nothing, [set] overwrites it. *)
Definition RedisDB_get : M (option State) := fun w => (Ok (hot w), w).

Definition RedisDB_set (s : State) : M unit :=
  fun w => (Ok tt, mk_World (Some s) (durable w) (writes w ++ [RedisSet s])).

(** Modelled from the spec: [app.models.telemetry.Telemetry] (the ORM
    class [pgTelemetry]) is not among the sources.  DurableLog is an
    append-only sequence: [get_last] returns its latest record or nothing,
    [save_from_schema] followed by [commit] appends one record. *)
Definition pgTelemetry_get_last : M (option State) :=
  fun w => (Ok (last (map Some (durable w)) None), w).

Definition pgTelemetry_save_from_schema (s : State) : M unit :=
  fun w => (Ok tt, mk_World (hot w) (durable w ++ [s]) (writes w ++ [PgSave s])).

(** [PointSet(lng=.., lat=..)]: both fields are declared [float] with no
    default, so the model's validation rejects [None]. *)
Definition PointSet_new (lng_ lat_ : option float) : M PointSet :=
  match lng_, lat_ with
  | Some x, Some y => ret (mk_PointSet x y)
  | _, _ => raise ValidationError
  end.

(** The columns of [Race] ([app/models/race.py]); a column not set yet
    is [None]. *)
Module Race.
Record t : Type := mk {
  id : option Z;
  start_time : option datetime;
  finish_time : option datetime;
  boat_name : option String.string;
  start_pos_lat : option float;
  start_pos_lng : option float
}.
End Race.

(** Modelled from the spec: [app.context.AppContext] is not among the
    sources.  The context carries the store handles: the stores of the
    engine and the ORM session, of which the model keeps the objects
    passed to [session.add], oldest first. *)
Record AppContext : Type := mk_AppContext {
  stores : World;
  session_added : list Race.t
}.

Inductive RaceExn : Type :=
  | StateError (e : Exn)
  | ValueError.

Inductive RaceResult (A : Type) : Type :=
  | Returned (a : A)
  | Raised (e : RaceExn).
Arguments Returned {A} a.
Arguments Raised {A} e.

(** [Race.save]: [ctx.session.add(self)] *)
Definition Race_save (self : Race.t) (ctx : AppContext) : AppContext :=
  mk_AppContext (stores ctx) (session_added ctx ++ [self]).

(** [cur_state.race_id = None]: [State] declares no field [race_id], and
    a model refuses the assignment of a field it does not declare. *)
Definition State_set_race_id (cur_state : State) (v : option Z) : RaceResult State :=
  Raised ValueError.

(** ** The engine *)

Section Engine.

(** [geopy.distance.geodesic(a, b).km] and [geopy.distance.geodesic(a, b).m]
    come from a third-party package: the geodesic distance between two
    positions, in kilometres and in metres.  They are taken as total
    functions: positions are coordinates the package accepts. *)
Variable geodesic_km : coord -> coord -> float.
Variable geodesic_m : coord -> coord -> float.

(** [app.constants] is not among the sources: the lap radius in metres
    and the remember delay in whole seconds are left open. *)
Variable LAP_ADD_RADIUS_METERS : float.
Variable TELEMETRY_REMEMBER_DELAY : Z.

Definition get_current_state : M State :=
  cur <- RedisDB_get ;;
  match cur with
  | None => raise FileNotFoundError
  | Some s => ret s
  end.

Definition get_pg_state : M (option State) := pgTelemetry_get_last.

(** [delta = (self.created_at - prev.created_at).seconds / 3600] *)
Definition delta (self prev : State) : float :=
  PyFloat.int_truediv
    (Datetime.seconds (Datetime.sub (created_at self) (created_at prev))) 3600.

(** [count_laps] reads the anchor from [self]; it is only called once both
    coordinates are known to be present, and they are passed as [lap_coord]. *)
Definition count_laps (lap_coord : coord) (self prev : State) : State :=
  let prev_coord := (position_lat prev, position_lng prev) in
  let cur_coord := (position_lat self, position_lng self) in
  let prev_dist := geodesic_m prev_coord lap_coord in
  let cur_dist := geodesic_m cur_coord lap_coord in
  if PyFloat.gtb prev_dist LAP_ADD_RADIUS_METERS
     && PyFloat.geb LAP_ADD_RADIUS_METERS cur_dist
  then set_laps (laps self + 1) self
  else self.

Definition update_from_previous (self prev : State) : State :=
  let cur_coord := (position_lat self, position_lng self) in
  let prev_coord := (position_lat prev, position_lng prev) in
  let distance := geodesic_km cur_coord prev_coord in
  let self :=
    set_speed (PyFloat.div distance (PyFloat.max (delta self prev) PyFloat.one)) self in
  let self :=
    set_distance_travelled (PyFloat.add (distance_travelled prev) distance) self in
  let self := set_laps (laps prev) self in
  let self := set_lap_point_lat (lap_point_lat prev) self in
  let self := set_lap_point_lng (lap_point_lng prev) self in
  match lap_point_lng self, lap_point_lat self with
  | Some lo, Some la => count_laps (la, lo) self prev
  | _, _ => self
  end.

Definition from_telemetry (telemetry : Telemetry.t) : M State :=
  let res := State_of_telemetry telemetry in
  try_except_FileNotFoundError get_current_state
    (ret res)
    (fun prev => ret (update_from_previous res prev)).

Definition _save_redis (self : State) : M unit := RedisDB_set self.

Definition _save_pg (self : State) : M unit := pgTelemetry_save_from_schema self.

Definition save (self : State) : M TelemetrySaveStatus :=
  try_except_FileNotFoundError get_current_state
    (_save_redis self ;;;
     _save_pg self ;;;
     ret PERM_SAVED)
    (fun prev =>
       (if Datetime.ltb (created_at prev) (created_at self)
        then _save_redis self
        else ret tt) ;;;
       prev <- get_pg_state ;;
       match prev with
       | None =>
           _save_pg self ;;;
           ret PERM_SAVED
       | Some prev =>
           if Datetime.gtb (Datetime.sub (created_at self) (created_at prev))
                (Datetime.of_seconds TELEMETRY_REMEMBER_DELAY)
           then _save_pg self ;;; ret PERM_SAVED
           else ret TEMP_SAVED
       end).

(** [Telemetry.save_current_state]: the status of [save] is dropped. *)
Definition save_current_state (self : Telemetry.t) : M unit :=
  state <- from_telemetry self ;;
  save state ;;;
  ret tt.

Definition set_point : M PointSet :=
  prev <- get_current_state ;;
  let prev := set_lap_point_lng (Some (position_lng prev)) prev in
  let prev := set_lap_point_lat (Some (position_lat prev)) prev in
  let prev := set_laps 0 prev in
  _save_redis prev ;;;
  PointSet_new (lap_point_lng prev) (lap_point_lat prev).

Definition reset_point : M unit :=
  prev <- get_current_state ;;
  let prev := set_lap_point_lng None prev in
  let prev := set_lap_point_lat None prev in
  let prev := set_laps 0 prev in
  _save_redis prev.

(** [prev.distance_travelled = 0] stores the int 0, which the hot slot
    gives back as the float 0.0. *)
Definition reset_distance : M unit :=
  prev <- get_current_state ;;
  let prev := set_distance_travelled (PyFloat.of_int 0) prev in
  _save_redis prev.

Definition remove_point : M PointSet :=
  prev <- get_current_state ;;
  let prev := set_lap_point_lng None prev in
  let prev := set_lap_point_lat None prev in
  let prev := set_laps 0 prev in
  _save_redis prev ;;;
  PointSet_new (lap_point_lng prev) (lap_point_lat prev).

Definition clear_distance : M unit :=
  prev <- get_current_state ;;
  let prev := set_distance_travelled (PyFloat.of_int 0) prev in
  _save_redis prev.

(** The States derived one after the other from a first State and a run
    of samples, each from the one before it. *)
Fixpoint derive_all (prev : State) (samples : list Telemetry.t) : list State :=
  match samples with
  | [] => []
  | t :: ts =>
      let s := update_from_previous (State_of_telemetry t) prev in
      s :: derive_all s ts
  end.

(** The State that [from_telemetry] returns, as a function of the sample
    and of what the hot slot holds (StateEngine.derive in the
    specification); [from_telemetry_derive] relates the two. *)
Definition derive (sample : Telemetry.t) (previous : option State) : State :=
  match previous with
  | None => State_of_telemetry sample
  | Some prev => update_from_previous (State_of_telemetry sample) prev
  end.

(** Ingestion with the status kept: [from_telemetry] then [save], as
    [save_current_state] runs them. *)
Definition ingest (sample : Telemetry.t) : M TelemetrySaveStatus :=
  state <- from_telemetry sample ;;
  save state.

(** The calls the service makes on the engine, and the stores after a
    call and after a run of calls. *)
Inductive Call : Type :=
  | CallIngest (sample : Telemetry.t)
  | CallSetPoint
  | CallResetPoint
  | CallRemovePoint
  | CallResetDistance
  | CallClearDistance.

Definition run_call (c : Call) (w : World) : World :=
  match c with
  | CallIngest sample => snd (save_current_state sample w)
  | CallSetPoint => snd (set_point w)
  | CallResetPoint => snd (reset_point w)
  | CallRemovePoint => snd (remove_point w)
  | CallResetDistance => snd (reset_distance w)
  | CallClearDistance => snd (clear_distance w)
  end.

Definition run_calls (cs : list Call) (w : World) : World :=
  fold_left (fun w c => run_call c w) cs w.

(** A State whose laps are not negative and whose distance travelled is
    a non-negative number. *)
Definition well_formed (s : State) : Prop :=
  0 <= laps s /\ PyFloat.nonneg (distance_travelled s).

(** LapGeofence.crossed, in the words of the specification: true iff
    distance(previousPos, anchor) > radiusMeters and
    distance(currentPos, anchor) <= radiusMeters. *)
Definition crossed (anchor : coord) (radiusMeters : float)
    (previousPos currentPos : coord) : bool :=
  PyFloat.gtb (geodesic_m previousPos anchor) radiusMeters
  && PyFloat.leb (geodesic_m currentPos anchor) radiusMeters.

(** The sample's timestamp is more than the remember delay after the
    latest durable record, or there is no such record. *)
Definition durable_due (sample : Telemetry.t) (log : list State) : Prop :=
  match last (map Some log) None with
  | None => True
  | Some d =>
      Telemetry.created_at sample - created_at d
      > TELEMETRY_REMEMBER_DELAY * 1000000
  end.

Definition durable_dueb (sample : Telemetry.t) (log : list State) : bool :=
  match last (map Some log) None with
  | None => true
  | Some d =>
      TELEMETRY_REMEMBER_DELAY * 1000000
      <? Telemetry.created_at sample - created_at d
  end.

(** The elapsed-time denominator in the words of the specification:
    max((sample.timestamp - previous.timestamp) in seconds / 3600, 1),
    the elapsed time being [timedelta.total_seconds()]. *)
Definition deltaHours_spec (sample_timestamp previous_timestamp : datetime) : float :=
  PyFloat.max
    (PyFloat.div
       (PyFloat.int_truediv (sample_timestamp - previous_timestamp) 1000000)
       (PyFloat.of_int 3600))
    PyFloat.one.

(** ** Data for worked examples *)

(** Same float, bit for bit. *)
Definition float_same (x y : float) : bool :=
  match x, y with
  | S754_zero a, S754_zero b => Bool.eqb a b
  | S754_infinity a, S754_infinity b => Bool.eqb a b
  | S754_nan, S754_nan => true
  | S754_finite a m e, S754_finite b n f =>
      Bool.eqb a b && Pos.eqb m n && Z.eqb e f
  | _, _ => false
  end.

Definition coord_same (a b : coord) : bool :=
  float_same (fst a) (fst b) && float_same (snd a) (snd b).

(** A stand-in for the geodesic distance: 0 between a position and
    itself, 24 km between any two different positions. *)
Definition example_geodesic_km (a b : coord) : float :=
  if coord_same a b then PyFloat.zero else PyFloat.of_int 24.

Definition example_geodesic_m (a b : coord) : float :=
  if coord_same a b then PyFloat.zero else PyFloat.of_int 24000.

Definition example_radius : float := PyFloat.of_int 50.

Definition example_delay : Z := 60.

(** A sample taken at second [t] at integer coordinates. *)
Definition example_sample (t lat_ lng_ : Z) : Telemetry.t :=
  Telemetry.mk (t * 1000000) 100 50
    (PyFloat.of_int 48) (PyFloat.of_int 50) (PyFloat.of_int 200)
    (PyFloat.of_int 40) (PyFloat.of_int 1200)
    (PyFloat.of_int lat_) (PyFloat.of_int lng_).

(** The State of a first sample, and the same with an anchor set at (1, 1). *)
Definition example_state (t lat_ lng_ : Z) : State :=
  State_of_telemetry (example_sample t lat_ lng_).

Definition example_anchored (t lat_ lng_ : Z) : State :=
  set_lap_point_lat (Some (PyFloat.of_int 1))
    (set_lap_point_lng (Some (PyFloat.of_int 1)) (example_state t lat_ lng_)).

(** ** Runs of calls: what the properties below speak of *)

Definition empty_world : World := mk_World None [] [].

Definition sample_position (t : Telemetry.t) : coord :=
  (Telemetry.position_lat t, Telemetry.position_lng t).

(** The State an operator call writes back when the hot slot holds [h]. *)
Definition operator_update (c : Call) (h : State) : State :=
  match c with
  | CallIngest _ => h
  | CallSetPoint =>
      set_laps 0
        (set_lap_point_lat (Some (position_lat h))
           (set_lap_point_lng (Some (position_lng h)) h))
  | CallResetPoint | CallRemovePoint =>
      set_laps 0 (set_lap_point_lat None (set_lap_point_lng None h))
  | CallResetDistance | CallClearDistance =>
      set_distance_travelled PyFloat.zero h
  end.

Definition is_operator (c : Call) : bool :=
  match c with
  | CallIngest _ => false
  | _ => true
  end.

(** How many times a run of positions goes from farther than the radius
    from the anchor to within it, starting from [previousPos]. *)
Fixpoint crossings (anchor previousPos : coord) (positions : list coord) : Z :=
  match positions with
  | [] => 0
  | p :: ps =>
      (if crossed anchor LAP_ADD_RADIUS_METERS previousPos p then 1 else 0)
      + crossings anchor p ps
  end.


(** Every record of the log is more than the remember delay after the
    record before it. *)
Fixpoint spaced (log : list State) : Prop :=
  match log with
  | [] => True
  | a :: rest =>
      match rest with
      | [] => True
      | b :: _ =>
          created_at b - created_at a > TELEMETRY_REMEMBER_DELAY * 1000000
      end
      /\ spaced rest
  end.

(** ** Races ([app/models/race.py]): context and operations *)

(** [Race.start_new_race]; [now] is what [datetime.datetime.now()] returns. *)
Definition start_new_race (now : datetime) (ctx : AppContext)
    : RaceResult Race.t * AppContext :=
  match get_current_state (stores ctx) with
  | (Raise e, w) => (Raised (StateError e), mk_AppContext w (session_added ctx))
  | (Ok cur_state, w) =>
      let new_race :=
        Race.mk None (Some now) None None
          (Some (position_lat cur_state)) (Some (position_lng cur_state)) in
      (Returned new_race, Race_save new_race (mk_AppContext w (session_added ctx)))
  end.

(** [Race.stop] *)
Definition stop (now : datetime) (self : Race.t) (ctx : AppContext)
    : RaceResult unit * AppContext :=
  let self :=
    Race.mk (Race.id self) (Race.start_time self) (Some now)
      (Race.boat_name self) (Race.start_pos_lat self) (Race.start_pos_lng self) in
  let ctx := Race_save self ctx in
  match get_current_state (stores ctx) with
  | (Raise e, w) => (Raised (StateError e), mk_AppContext w (session_added ctx))
  | (Ok cur_state, w) =>
      match State_set_race_id cur_state None with
      | Raised e => (Raised e, mk_AppContext w (session_added ctx))
      | Returned _ => (Returned tt, mk_AppContext w (session_added ctx))
      end
  end.

(** ** Facts about timedelta *)

Lemma normalize_total (us : Z) :
  Datetime.total_microseconds (Datetime.normalize us) = us.
Proof.
  unfold Datetime.total_microseconds, Datetime.normalize,
    Datetime.US_PER_SECOND, Datetime.SECONDS_PER_DAY; simpl.
  pose proof (Z.div_mod us 1000000 ltac:(lia)) as H1.
  pose proof (Z.div_mod (us / 1000000) 86400 ltac:(lia)) as H2.
  pose proof (Z.div_div us 1000000 86400 ltac:(lia) ltac:(lia)) as H3.
  change (1000000 * 86400) with 86400000000 in *.
  rewrite <- H3.
  lia.
Qed.

Lemma normalize_ranges (us : Z) :
  0 <= Datetime.seconds (Datetime.normalize us) < 86400
  /\ 0 <= Datetime.microseconds (Datetime.normalize us) < 1000000.
Proof.
  unfold Datetime.normalize, Datetime.US_PER_SECOND, Datetime.SECONDS_PER_DAY;
    simpl.
  split; apply Z.mod_pos_bound; lia.
Qed.

(** Comparing two normalised timedeltas compares the durations. *)
Lemma compare_normalize (a b : Z) :
  Datetime.compare (Datetime.normalize a) (Datetime.normalize b) = (a ?= b).
Proof.
  pose proof (normalize_total a) as Ta.
  pose proof (normalize_total b) as Tb.
  pose proof (normalize_ranges a) as [Sa Ua].
  pose proof (normalize_ranges b) as [Sb Ub].
  unfold Datetime.compare.
  unfold Datetime.total_microseconds, Datetime.US_PER_SECOND,
    Datetime.SECONDS_PER_DAY in Ta, Tb.
  destruct (Datetime.normalize a) as [da sa ua].
  destruct (Datetime.normalize b) as [db sb ub].
  simpl in *.
  symmetry.
  destruct (Z.compare_spec da db) as [E | L | G].
  - destruct (Z.compare_spec sa sb) as [E' | L' | G'].
    + subst. destruct (Z.compare_spec ua ub); [apply Z.compare_eq_iff | apply Z.compare_lt_iff | apply Z.compare_gt_iff]; lia.
    + apply Z.compare_lt_iff; subst; nia.
    + apply Z.compare_gt_iff; subst; nia.
  - apply Z.compare_lt_iff; nia.
  - apply Z.compare_gt_iff; nia.
Qed.

Lemma gtb_sub_of_seconds (a b n : Z) :
  Datetime.gtb (Datetime.sub a b) (Datetime.of_seconds n)
  = (n * 1000000 <? a - b).
Proof.
  unfold Datetime.gtb, Datetime.sub, Datetime.of_seconds, Datetime.US_PER_SECOND.
  rewrite compare_normalize.
  destruct (Z.compare_spec (a - b) (n * 1000000)); symmetry;
    [apply Z.ltb_ge | apply Z.ltb_ge | apply Z.ltb_lt]; lia.
Qed.

(** ** Facts about binary floating-point numbers *)

Section FloatFacts.

Variables prec emax : Z.
Hypothesis prec_gt_0 : 0 < prec.

Local Abbreviation emin := (SpecFloat.emin prec emax).
Local Abbreviation fexp := (SpecFloat.fexp prec emax).

Lemma digits2_pos_size (p : positive) : digits2_pos p = Pos.size p.
Proof. induction p; cbn; congruence. Qed.

Lemma Zdigits2_log2 (m : Z) : 0 < m -> Zdigits2 m = Z.log2 m + 1.
Proof.
  destruct m as [| p | p]; try lia. intros _.
  destruct p; cbn; rewrite ?digits2_pos_size; lia.
Qed.

Lemma Zdigits2_le (a b : Z) : 0 < a -> a <= b -> Zdigits2 a <= Zdigits2 b.
Proof.
  intros Ha Hab. rewrite !Zdigits2_log2 by lia.
  pose proof (Z.log2_le_mono a b Hab). lia.
Qed.

Lemma Zdigits2_mul_pow2 (a k : Z) :
  0 < a -> 0 <= k -> Zdigits2 (a * 2 ^ k) = Zdigits2 a + k.
Proof.
  intros Ha Hk.
  assert (0 < a * 2 ^ k) by (apply Z.mul_pos_pos; [lia | apply Z.pow_pos_nonneg; lia]).
  rewrite !Zdigits2_log2 by lia.
  rewrite Z.log2_mul_pow2 by lia. lia.
Qed.

Lemma Zdigits2_div_pow2 (a k : Z) :
  0 < a -> 0 <= k -> k < Zdigits2 a ->
  0 < a / 2 ^ k /\ Zdigits2 (a / 2 ^ k) = Zdigits2 a - k.
Proof.
  intros Ha Hk Hlt.
  rewrite (Zdigits2_log2 a) in * by lia.
  assert (Hpow : 2 ^ k <= a).
  { destruct (Z.log2_spec a Ha) as [Hl _].
    apply Z.le_trans with (2 ^ Z.log2 a); [| exact Hl].
    apply Z.pow_le_mono_r; lia. }
  assert (Hq : 0 < a / 2 ^ k).
  { apply Z.div_str_pos. split; [apply Z.pow_pos_nonneg; lia | exact Hpow]. }
  split; [exact Hq |].
  rewrite Zdigits2_log2 by exact Hq.
  rewrite <- Z.shiftr_div_pow2 by lia.
  rewrite Z.log2_shiftr by lia.
  lia.
Qed.

Lemma fexp_le (a b : Z) : a <= b -> fexp a <= fexp b.
Proof. unfold SpecFloat.fexp. lia. Qed.

Lemma emin_le_fexp (a : Z) : emin <= fexp a.
Proof. unfold SpecFloat.fexp. lia. Qed.

(** Shifting a mantissa right divides it by a power of two. *)

Lemma shr_1_m (r : shr_record) :
  0 <= shr_m r -> shr_m (shr_1 r) = shr_m r / 2.
Proof.
  destruct r as [m r s]; cbn [shr_m]. intros Hm.
  destruct m as [| [p | p |] | p]; cbn [shr_1 shr_m];
    first [ reflexivity
          | exfalso; lia
          | exact (Z.div_unique (Z.pos p~1) 2 (Z.pos p) 1 ltac:(lia) ltac:(lia))
          | exact (Z.div_unique (Z.pos p~0) 2 (Z.pos p) 0 ltac:(lia) ltac:(lia)) ].
Qed.

Lemma iter_pos_shr_1_m (n : positive) : forall r : shr_record,
  0 <= shr_m r -> shr_m (iter_pos shr_1 n r) = shr_m r / 2 ^ Zpos n.
Proof.
  assert (Hnn : forall a k, 0 <= a -> 0 <= k -> 0 <= a / 2 ^ k).
  { intros a k Ha Hk. apply Z.div_pos; [lia | apply Z.pow_pos_nonneg; lia]. }
  assert (Hdd : forall a k1 k2, 0 <= k1 -> 0 <= k2 ->
                a / 2 ^ k1 / 2 ^ k2 = a / 2 ^ (k1 + k2)).
  { intros a k1 k2 H1 H2. rewrite Z.pow_add_r by lia.
    pose proof (Z.pow_pos_nonneg 2 k1 ltac:(lia) H1).
    pose proof (Z.pow_pos_nonneg 2 k2 ltac:(lia) H2).
    apply Z.div_div; lia. }
  induction n as [n IH | n IH |]; intros r Hr; cbn [iter_pos].
  - assert (H1 : shr_m (shr_1 r) = shr_m r / 2 ^ 1)
      by (rewrite Z.pow_1_r; apply shr_1_m; assumption).
    assert (H2 : 0 <= shr_m (shr_1 r)) by (rewrite H1; apply Hnn; lia).
    pose proof (IH _ H2) as H3.
    assert (H4 : 0 <= shr_m (iter_pos shr_1 n (shr_1 r)))
      by (rewrite H3; apply Hnn; lia).
    rewrite (IH _ H4), H3, H1, !Hdd by lia.
    f_equal. f_equal. lia.
  - pose proof (IH _ Hr) as H3.
    assert (H4 : 0 <= shr_m (iter_pos shr_1 n r))
      by (rewrite H3; apply Hnn; lia).
    rewrite (IH _ H4), H3, !Hdd by lia.
    f_equal. f_equal. lia.
  - rewrite shr_1_m by assumption. reflexivity.
Qed.

Lemma shr_m_spec (r : shr_record) (e n : Z) :
  0 <= shr_m r -> 0 <= n ->
  shr_m (fst (shr r e n)) = shr_m r / 2 ^ n /\ snd (shr r e n) = e + n.
Proof.
  intros Hr Hn. unfold shr.
  destruct n as [| p | p]; cbn [fst snd]; try lia.
  - rewrite Z.pow_0_r, Z.div_1_r. lia.
  - rewrite iter_pos_shr_1_m by assumption. lia.
Qed.

Lemma shr_m_record_of_loc (m : Z) (l : location) :
  shr_m (shr_record_of_loc m l) = m.
Proof. destruct l as [| []]; reflexivity. Qed.

(** One pass of [shr_fexp] on a positive mantissa whose exponent is not
    above the canonical one. *)
Lemma shr_fexp_spec (m e : Z) (l : location) :
  0 < m -> emin <= e -> e <= fexp (Zdigits2 m + e) ->
  let n := fexp (Zdigits2 m + e) - e in
  shr_m (fst (shr_fexp prec emax m e l)) = m / 2 ^ n
  /\ snd (shr_fexp prec emax m e l) = e + n
  /\ 0 < m / 2 ^ n
  /\ fexp (Zdigits2 (m / 2 ^ n) + (e + n)) = e + n.
Proof.
  intros Hm He Hle n.
  unfold shr_fexp. fold n.
  assert (Hn : 0 <= n) by (unfold n; lia).
  destruct (shr_m_spec (shr_record_of_loc m l) e n) as [H1 H2];
    rewrite ?shr_m_record_of_loc; try lia.
  rewrite shr_m_record_of_loc in H1.
  assert (Hd : 1 <= Zdigits2 m).
  { rewrite Zdigits2_log2 by lia. pose proof (Z.log2_nonneg m). lia. }
  assert (Hlt : n < Zdigits2 m).
  { unfold n, SpecFloat.fexp in *. lia. }
  destruct (Zdigits2_div_pow2 m n Hm Hn Hlt) as [Hq Hdq].
  repeat split; try assumption.
  rewrite Hdq. unfold n.
  replace (Zdigits2 m - (fexp (Zdigits2 m + e) - e) + (e + (fexp (Zdigits2 m + e) - e)))
    with (Zdigits2 m + e) by ring.
  ring.
Qed.

Lemma round_nearest_even_bounds (m : Z) (l : location) :
  m <= round_nearest_even m l <= m + 1.
Proof.
  unfold round_nearest_even.
  destruct l as [| []]; try destruct (Z.even m); lia.
Qed.

(** Rounding a positive mantissa. *)
Lemma binary_round_aux_pos (s : bool) (m e : Z) (l : location) :
  0 < m -> emin <= e -> e <= fexp (Zdigits2 m + e) ->
  exists (m3 : positive) (e3 : Z),
    fexp (Zdigits2 (Zpos m3) + e3) = e3
    /\ fexp (Zdigits2 m + e) <= e3
    /\ (e3 = fexp (Zdigits2 m + e) ->
        m / 2 ^ (fexp (Zdigits2 m + e) - e) <= Zpos m3)
    /\ binary_round_aux prec emax s m e l
       = if e3 <=? emax - prec then S754_finite s m3 e3 else S754_infinity s.
Proof.
  intros Hm He Hle.
  unfold binary_round_aux.
  destruct (shr_fexp_spec m e l Hm He Hle) as (H1 & H2 & H3 & H4).
  destruct (shr_fexp prec emax m e l) as [mrs' e'] eqn:E1.
  cbn [fst snd] in H1, H2.
  remember (fexp (Zdigits2 m + e) - e) as n eqn:Hn.
  remember (round_nearest_even (shr_m mrs') (loc_of_shr_record mrs')) as m2 eqn:Hm2.
  pose proof (round_nearest_even_bounds (shr_m mrs') (loc_of_shr_record mrs')) as Hb.
  rewrite <- Hm2, H1 in Hb.
  assert (Hm2pos : 0 < m2) by lia.
  assert (He' : emin <= e') by (clear - He Hle Hn H2; lia).
  assert (Hle2 : e' <= fexp (Zdigits2 m2 + e')).
  { rewrite H2. rewrite <- H4 at 1. apply fexp_le.
    apply Z.add_le_mono_r. apply Zdigits2_le; lia. }
  destruct (shr_fexp_spec m2 e' loc_Exact Hm2pos He' Hle2) as (G1 & G2 & G3 & G4).
  destruct (shr_fexp prec emax m2 e' loc_Exact) as [mrs'' e''] eqn:E2.
  cbn [fst snd] in G1, G2.
  remember (fexp (Zdigits2 m2 + e') - e') as n2 eqn:Hn2.
  destruct (shr_m mrs'') as [| m3 | m3] eqn:E3; try lia.
  exists m3, e''.
  repeat split.
  - rewrite G1, G2. exact G4.
  - lia.
  - intros Heq. assert (Hz : n2 = 0) by lia.
    rewrite Hz, Z.pow_0_r, Z.div_1_r in G1. lia.
Qed.

Lemma iter_xO_pow2 (m d : positive) :
  Zpos (Pos.iter xO m d) = Zpos m * 2 ^ Zpos d.
Proof.
  induction d as [| d IH] using Pos.peano_ind.
  - cbn. lia.
  - rewrite Pos.iter_succ, Pos2Z.inj_xO, IH, Pos2Z.inj_succ, Z.pow_succ_r by lia.
    ring.
Qed.

Lemma shl_align_spec (m : positive) (e e' : Z) :
  e' <= e ->
  Zpos (fst (shl_align m e e')) = Zpos m * 2 ^ (e - e')
  /\ snd (shl_align m e e') = e'.
Proof.
  intros Hle. unfold shl_align.
  destruct (e' - e) as [| d | d] eqn:E; cbn [fst snd]; try lia.
  - replace (e - e') with 0 by lia. rewrite Z.pow_0_r. lia.
  - rewrite iter_xO_pow2. replace (e - e') with (Zpos d) by lia. lia.
Qed.

Lemma binary_round_pos (s : bool) (m : positive) (e : Z) :
  emin <= e ->
  exists (m3 : positive) (e3 : Z),
    fexp (Zdigits2 (Zpos m3) + e3) = e3
    /\ fexp (Zdigits2 (Zpos m) + e) <= e3
    /\ (e3 = fexp (Zdigits2 (Zpos m) + e) -> e <= e3 ->
        Zpos m / 2 ^ (e3 - e) <= Zpos m3)
    /\ binary_round prec emax s m e
       = if e3 <=? emax - prec then S754_finite s m3 e3 else S754_infinity s.
Proof.
  intros He. unfold binary_round.
  change (Z.pos (digits2_pos m)) with (Zdigits2 (Zpos m)).
  remember (fexp (Zdigits2 (Zpos m) + e)) as E eqn:HE.
  destruct (Z.le_gt_cases e E) as [Hle | Hgt].
  - assert (Hs : shl_align m e E = (m, e)).
    { unfold shl_align. destruct (E - e) eqn:X; try reflexivity; lia. }
    rewrite Hs.
    destruct (binary_round_aux_pos s (Zpos m) e loc_Exact) as (m3 & e3 & A & B & C & D);
      try lia.
    exists m3, e3. rewrite <- HE in *. repeat split; try assumption.
    intros H1 H2. rewrite H1. apply C. exact H1.
  - destruct (shl_align_spec m e E ltac:(lia)) as [H1 H2].
    destruct (shl_align m e E) as [mz ez]. cbn [fst snd] in H1, H2. subst ez.
    assert (Hd : Zdigits2 (Zpos mz) + E = Zdigits2 (Zpos m) + e).
    { rewrite H1, Zdigits2_mul_pow2 by lia. ring. }
    assert (HE' : fexp (Zdigits2 (Zpos mz) + E) = E) by (rewrite Hd; lia).
    destruct (binary_round_aux_pos s (Zpos mz) E loc_Exact) as (m3 & e3 & A & B & C & D);
      try lia.
    { rewrite HE. apply emin_le_fexp. }
    exists m3, e3. rewrite HE' in *. repeat split; try assumption.
    intros H3 H4. lia.
Qed.

(** Addition of two non-negative binary numbers in canonical form: the
    sum is again canonical, or +infinity, and is not below the first
    operand. *)
Lemma SFadd_finite_nonneg (mx : positive) (ex : Z) (my : positive) (ey : Z) :
  bounded prec emax mx ex = true ->
  bounded prec emax my ey = true ->
  SFadd prec emax (S754_finite false mx ex) (S754_finite false my ey)
  = S754_infinity false
  \/ exists m e,
       SFadd prec emax (S754_finite false mx ex) (S754_finite false my ey)
       = S754_finite false m e
       /\ bounded prec emax m e = true
       /\ (ex < e \/ (ex = e /\ (mx <= m)%positive)).
Proof.
  unfold bounded, canonical_mantissa.
  intros Hx Hy.
  apply andb_prop in Hx as [Hcx Hbx]. apply andb_prop in Hy as [Hcy Hby].
  apply Z.eqb_eq in Hcx, Hcy.
  change (Z.pos (digits2_pos mx)) with (Zdigits2 (Zpos mx)) in Hcx.
  change (Z.pos (digits2_pos my)) with (Zdigits2 (Zpos my)) in Hcy.
  pose proof (emin_le_fexp (Zdigits2 (Zpos mx) + ex)) as Hex.
  pose proof (emin_le_fexp (Zdigits2 (Zpos my) + ey)) as Hey.
  rewrite Hcx in Hex. rewrite Hcy in Hey.
  unfold SFadd. cbn [cond_Zopp].
  remember (Z.min ex ey) as ez eqn:Hez.
  destruct (shl_align_spec mx ex ez ltac:(lia)) as [Ha _].
  destruct (shl_align_spec my ey ez ltac:(lia)) as [Hb _].
  remember (fst (shl_align mx ex ez)) as a eqn:Ea.
  remember (fst (shl_align my ey ez)) as b eqn:Eb.
  change (Z.pos a + Z.pos b) with (Z.pos (a + b)).
  cbn [binary_normalize].
  destruct (binary_round_pos false (a + b) ez ltac:(lia)) as (m3 & e3 & A & B & C & D).
  rewrite D.
  destruct (Z.leb_spec e3 (emax - prec)) as [Hle | Hgt]; [right | left; reflexivity].
  exists m3, e3. split; [reflexivity |]. split.
  - apply andb_true_intro. split.
    + apply Z.eqb_eq. exact A.
    + apply Z.leb_le. exact Hle.
  - assert (Hpow : 0 < 2 ^ (ex - ez)) by (apply Z.pow_pos_nonneg; lia).
    assert (Hdig : Zdigits2 (Zpos mx) + ex <= Zdigits2 (Zpos (a + b)) + ez).
    { replace (Zdigits2 (Zpos mx) + ex)
        with (Zdigits2 (Zpos mx * 2 ^ (ex - ez)) + ez)
        by (rewrite Zdigits2_mul_pow2 by lia; ring).
      apply Z.add_le_mono_r. apply Zdigits2_le; [lia |].
      rewrite Pos2Z.inj_add, Ha. lia. }
    apply fexp_le in Hdig. rewrite Hcx in Hdig.
    destruct (Z.eq_dec ex e3) as [Heq | Hne]; [right | left; lia].
    split; [exact Heq |].
    assert (Hq : Zpos mx <= Zpos (a + b) / 2 ^ (e3 - ez)).
    { rewrite <- Heq. apply Z.div_le_lower_bound; [exact Hpow |].
      rewrite Pos2Z.inj_add, Ha. lia. }
    specialize (C ltac:(lia) ltac:(lia)). lia.
Qed.

(** Rounding a non-negative mantissa never yields NaN and keeps the sign. *)
Lemma shr_m_nonneg (r : shr_record) (e n : Z) :
  0 <= shr_m r -> 0 <= shr_m (fst (shr r e n)).
Proof.
  intros Hr. unfold shr. destruct n as [| p | p]; cbn [fst]; try assumption.
  rewrite iter_pos_shr_1_m by assumption.
  apply Z.div_pos; [assumption | apply Z.pow_pos_nonneg; lia].
Qed.

Lemma binary_round_aux_sign (s : bool) (m e : Z) (l : location) :
  0 <= m ->
  match binary_round_aux prec emax s m e l with
  | S754_zero s' | S754_infinity s' | S754_finite s' _ _ => s' = s
  | S754_nan => False
  end.
Proof.
  intros Hm. unfold binary_round_aux, shr_fexp.
  pose proof (shr_m_nonneg (shr_record_of_loc m l) e
                (fexp (Zdigits2 m + e) - e)) as H1.
  rewrite shr_m_record_of_loc in H1. specialize (H1 Hm).
  destruct (shr (shr_record_of_loc m l) e _) as [mrs' e']. cbn [fst] in H1.
  pose proof (round_nearest_even_bounds (shr_m mrs') (loc_of_shr_record mrs')) as Hb.
  remember (round_nearest_even (shr_m mrs') (loc_of_shr_record mrs')) as m2.
  pose proof (shr_m_nonneg (shr_record_of_loc m2 loc_Exact) e'
                (fexp (Zdigits2 m2 + e') - e')) as H2.
  rewrite shr_m_record_of_loc in H2. specialize (H2 ltac:(lia)).
  destruct (shr (shr_record_of_loc m2 loc_Exact) e' _) as [mrs'' e''].
  cbn [fst] in H2.
  destruct (shr_m mrs''); try lia; try reflexivity.
  destruct (_ <=? _); reflexivity.
Qed.

Lemma SFdiv_finite_sign (mx : positive) (ex : Z) (my : positive) (ey : Z) :
  match SFdiv prec emax (S754_finite false mx ex) (S754_finite false my ey) with
  | S754_zero s' | S754_infinity s' | S754_finite s' _ _ => s' = false
  | S754_nan => False
  end.
Proof.
  unfold SFdiv, SFdiv_core_binary.
  remember (Z.min _ _) as e'.
  remember (match ex - ey - e' with
            | 0 => Z.pos mx
            | Z.pos _ => Z.shiftl (Z.pos mx) (ex - ey - e')
            | Z.neg _ => 0
            end) as m'.
  assert (Hm' : 0 <= m').
  { subst m'. destruct (ex - ey - e') eqn:E; try lia.
    apply Z.shiftl_nonneg. lia. }
  pose proof (Z.div_pos m' (Zpos my) Hm' ltac:(lia)) as Hq.
  unfold Z.div in Hq.
  destruct (Z.div_eucl m' (Z.pos my)) as [q r]. cbn [fst] in Hq.
  apply (binary_round_aux_sign (xorb false false)). exact Hq.
Qed.

End FloatFacts.

(** The facts at binary64, on Python floats. *)

Lemma binary64_prec_gt_0 : 0 < PyFloat.prec.
Proof. reflexivity. Qed.

Lemma SFcompare_antisym (x y : float) :
  SFcompare y x = option_map CompOpp (SFcompare x y).
Proof.
  destruct x as [sx | sx | | sx mx ex], y as [sy | sy | | sy my ey];
    cbn; try destruct sx; try destruct sy; try reflexivity;
    rewrite (Z.compare_antisym ex ey);
    destruct (ex ?= ey); cbn; try reflexivity;
    rewrite (Pos.compare_cont_antisym mx my Eq); reflexivity.
Qed.

Lemma SFcompare_refl (x : float) : x <> S754_nan -> SFcompare x x = Some Eq.
Proof.
  destruct x as [s | s | | s m e]; cbn; intros H; try congruence;
    destruct s; try reflexivity;
    rewrite Z.compare_refl, Pos.compare_cont_refl; reflexivity.
Qed.

(** [x <= R] excludes [x > R]. *)
Lemma leb_not_gtb (x r : float) :
  PyFloat.leb x r = true -> PyFloat.gtb x r = false.
Proof.
  unfold PyFloat.leb, PyFloat.gtb, SFleb, SFltb.
  rewrite (SFcompare_antisym x r).
  destruct (SFcompare x r) as [[] |]; cbn; congruence.
Qed.

(** Adding +0.0 leaves a number equal to itself under [==]. *)
Lemma add_zero_eqb (x : float) :
  x <> S754_nan -> PyFloat.eqb (PyFloat.add x PyFloat.zero) x = true.
Proof.
  intros H. unfold PyFloat.eqb, SFeqb.
  destruct x as [[] | [] | | s m e]; try congruence; try reflexivity.
  cbn [PyFloat.add SFadd PyFloat.zero].
  rewrite SFcompare_refl by discriminate. reflexivity.
Qed.

Lemma nonnegb_spec (x : float) : PyFloat.nonnegb x = true <-> PyFloat.nonneg x.
Proof.
  destruct x as [s | s | | s m e]; try destruct s; cbn; split; intro H;
    try reflexivity; try discriminate; try exact I; try contradiction;
    try (split; [reflexivity | exact H]);
    try apply H; destruct H; discriminate.
Qed.

(** Adding a non-negative number to a non-negative number gives a
    non-negative number that is not below the first one. *)
Lemma add_nonneg (x d : float) :
  PyFloat.nonneg x -> PyFloat.nonneg d ->
  PyFloat.nonneg (PyFloat.add x d) /\ PyFloat.leb x (PyFloat.add x d) = true.
Proof.
  intros Hx Hd. unfold PyFloat.leb, SFleb, PyFloat.add.
  destruct x as [sx | sx | | sx mx ex]; cbn [PyFloat.nonneg] in Hx;
    try contradiction;
    destruct d as [sd | sd | | sd md ed]; cbn [PyFloat.nonneg] in Hd;
    try contradiction;
    repeat match goal with
           | H : _ /\ _ |- _ => destruct H
           | H : _ = false |- _ => subst
           end.
  9: {
    destruct (SFadd_finite_nonneg PyFloat.prec PyFloat.emax binary64_prec_gt_0
                mx ex md ed) as [-> | (m & e & -> & Hb & Ho)];
      try assumption.
    - cbn. auto.
    - cbn [PyFloat.nonneg SFcompare]. split; [auto |].
      destruct Ho as [Hlt | [-> Hle]].
      + apply Z.compare_lt_iff in Hlt. rewrite Hlt. reflexivity.
      + rewrite Z.compare_refl.
        change (Pos.compare_cont Eq mx m) with (Pos.compare mx m).
        destruct (Pos.compare_spec mx m); try reflexivity; lia. }
  all: try (destruct sx); try (destruct sd); cbn [SFadd PyFloat.nonneg];
    rewrite ?SFcompare_refl by discriminate; cbn; auto.
Qed.

(** [<=] is transitive on non-negative numbers. *)
Lemma leb_trans_nonneg (x y z : float) :
  PyFloat.nonneg x -> PyFloat.nonneg y -> PyFloat.nonneg z ->
  PyFloat.leb x y = true -> PyFloat.leb y z = true -> PyFloat.leb x z = true.
Proof.
  unfold PyFloat.leb, SFleb. intros Hx Hy Hz.
  destruct x as [sx | sx | | sx mx ex]; cbn [PyFloat.nonneg] in Hx;
    try contradiction;
    destruct y as [sy | sy | | sy my ey]; cbn [PyFloat.nonneg] in Hy;
    try contradiction;
    destruct z as [sz | sz | | sz mz ez]; cbn [PyFloat.nonneg] in Hz;
    try contradiction;
    repeat match goal with
           | H : _ /\ _ |- _ => destruct H
           | H : _ = false |- _ => subst
           end;
    cbn; try congruence; try reflexivity.
  change (Pos.compare_cont Eq mx my) with (Pos.compare mx my).
  change (Pos.compare_cont Eq my mz) with (Pos.compare my mz).
  change (Pos.compare_cont Eq mx mz) with (Pos.compare mx mz).
  destruct (Z.compare_spec ex ey), (Z.compare_spec ey ez),
    (Z.compare_spec ex ez); try lia; try congruence; try reflexivity;
    destruct (Pos.compare_spec mx my), (Pos.compare_spec my mz),
      (Pos.compare_spec mx mz); try lia; congruence.
Qed.

(** ** Derivation: what is copied and what is computed *)

Lemma sample_of_count_laps (lap_coord : coord) (self prev : State) :
  sample_of (count_laps lap_coord self prev) = sample_of self.
Proof.
  unfold count_laps.
  destruct (_ && _); reflexivity.
Qed.

Lemma sample_of_update_from_previous (self prev : State) :
  sample_of (update_from_previous self prev) = sample_of self.
Proof.
  unfold update_from_previous; cbn.
  destruct (lap_point_lng prev), (lap_point_lat prev);
    try rewrite sample_of_count_laps; reflexivity.
Qed.

Lemma sample_of_derive (sample : Telemetry.t) (previous : option State) :
  sample_of (derive sample previous) = sample.
Proof.
  destruct previous as [prev |]; cbn [derive].
  - rewrite sample_of_update_from_previous. destruct sample; reflexivity.
  - destruct sample; reflexivity.
Qed.

Lemma created_at_derive (sample : Telemetry.t) (previous : option State) :
  created_at (derive sample previous) = Telemetry.created_at sample.
Proof.
  change (created_at (derive sample previous))
    with (Telemetry.created_at (sample_of (derive sample previous))).
  now rewrite sample_of_derive.
Qed.

(** [from_telemetry] reads the hot slot, writes nothing and returns
    [derive] of the sample and of what it read. *)
Lemma from_telemetry_derive (sample : Telemetry.t) (w : World) :
  from_telemetry sample w = (Ok (derive sample (hot w)), w).
Proof.
  unfold from_telemetry, try_except_FileNotFoundError, get_current_state,
    bind, RedisDB_get.
  destruct (hot w); reflexivity.
Qed.

(** ** The persistence policy, case by case *)

Lemma save_absent (self : State) (d : list State) (ws : list StoreOp) :
  save self (mk_World None d ws)
  = (Ok PERM_SAVED,
     mk_World (Some self) (d ++ [self]) (ws ++ [RedisSet self; PgSave self])).
Proof.
  unfold save, try_except_FileNotFoundError, get_current_state, bind,
    RedisDB_get, _save_redis, _save_pg, RedisDB_set,
    pgTelemetry_save_from_schema, ret, raise; cbn.
  now rewrite <- app_assoc.
Qed.

Lemma save_present (self h : State) (d : list State) (ws : list StoreOp) :
  save self (mk_World (Some h) d ws)
  = let newer := created_at h <? created_at self in
    let hot' := if newer then Some self else Some h in
    let ws' := if newer then ws ++ [RedisSet self] else ws in
    let due :=
      match last (map Some d) None with
      | None => true
      | Some p =>
          TELEMETRY_REMEMBER_DELAY * 1000000 <? created_at self - created_at p
      end in
    if due
    then (Ok PERM_SAVED, mk_World hot' (d ++ [self]) (ws' ++ [PgSave self]))
    else (Ok TEMP_SAVED, mk_World hot' d ws').
Proof.
  unfold save, try_except_FileNotFoundError, get_current_state, bind,
    RedisDB_get, _save_redis, _save_pg, RedisDB_set, get_pg_state,
    pgTelemetry_get_last, pgTelemetry_save_from_schema, ret, raise,
    Datetime.ltb; cbn.
  destruct (created_at h <? created_at self); cbn;
    destruct (last (map Some d) None) as [p |]; cbn; try reflexivity;
    rewrite gtb_sub_of_seconds;
    destruct (_ <? _); reflexivity.
Qed.

Lemma durable_dueb_spec (sample : Telemetry.t) (log : list State) :
  durable_dueb sample log = true <-> durable_due sample log.
Proof.
  unfold durable_dueb, durable_due.
  destruct (last (map Some log) None).
  - rewrite Z.ltb_lt. lia.
  - tauto.
Qed.

(** [ingest] on a non-empty hot slot: the status and the stores after it. *)
Lemma ingest_present (sample : Telemetry.t) (h : State) (d : list State)
    (ws : list StoreOp) :
  ingest sample (mk_World (Some h) d ws)
  = let newState := derive sample (Some h) in
    let newer := created_at h <? Telemetry.created_at sample in
    let hot' := if newer then Some newState else Some h in
    let ws' := if newer then ws ++ [RedisSet newState] else ws in
    if durable_dueb sample d
    then (Ok PERM_SAVED,
          mk_World hot' (d ++ [newState]) (ws' ++ [PgSave newState]))
    else (Ok TEMP_SAVED, mk_World hot' d ws').
Proof.
  unfold ingest, bind.
  rewrite from_telemetry_derive; cbn [hot].
  rewrite save_present, created_at_derive.
  reflexivity.
Qed.

(** ** Claims on persistence *)

(** C1. A sample ingested while the hot slot is empty: [from_telemetry]
    returns the baseline State (speed 0, distance travelled 0, laps 0, no
    lap anchor, the sample's fields copied), [save] writes it to the hot
    slot and appends it to the durable log, and returns PERM_SAVED. *)
Theorem first_sample_baseline_and_perm_saved
    (sample : Telemetry.t) (d : list State) (ws : list StoreOp) :
  let w := mk_World None d ws in
  let st := derive sample None in
  from_telemetry sample w = (Ok st, w)
  /\ speed st = PyFloat.zero
  /\ distance_travelled st = PyFloat.zero
  /\ laps st = 0
  /\ lap_point_lat st = None /\ lap_point_lng st = None
  /\ lapAnchor st = None
  /\ sample_of st = sample
  /\ save st w
     = (Ok PERM_SAVED,
        mk_World (Some st) (d ++ [st]) (ws ++ [RedisSet st; PgSave st]))
  /\ ingest sample w
     = (Ok PERM_SAVED,
        mk_World (Some st) (d ++ [st]) (ws ++ [RedisSet st; PgSave st])).
Proof.
  intros w st.
  assert (Hs : save st w
    = (Ok PERM_SAVED,
       mk_World (Some st) (d ++ [st]) (ws ++ [RedisSet st; PgSave st])))
    by apply save_absent.
  assert (Hi : ingest sample w
    = (Ok PERM_SAVED,
       mk_World (Some st) (d ++ [st]) (ws ++ [RedisSet st; PgSave st]))).
  { unfold ingest, bind. rewrite from_telemetry_derive. exact Hs. }
  pose proof (sample_of_derive sample None) as Hc.
  pose proof (from_telemetry_derive sample w) as Hf.
  repeat split; solve [reflexivity | assumption].
Qed.

(** C5. A sample ingested while the hot slot holds a State: the derived
    State is appended to the durable log and PERM_SAVED is returned iff
    the log has no latest record or the sample's timestamp is more than
    REMEMBER_DELAY after the latest record's; otherwise TEMP_SAVED is
    returned and the durable log is left as it was. *)
Theorem save_durable_iff_due
    (sample : Telemetry.t) (h : State) (d : list State) (ws : list StoreOp) :
  let w := mk_World (Some h) d ws in
  let newState := derive sample (Some h) in
  exists status w',
    ingest sample w = (Ok status, w')
    /\ (status = PERM_SAVED <-> durable_due sample d)
    /\ (durable w' = d ++ [newState] <-> durable_due sample d)
    /\ (In (PgSave newState) (skipn (length ws) (writes w'))
        <-> durable_due sample d)
    /\ (~ durable_due sample d ->
        status = TEMP_SAVED /\ durable w' = d
        /\ forall s, ~ In (PgSave s) (skipn (length ws) (writes w'))).
Proof.
  intros w newState. subst w.
  rewrite ingest_present. cbn zeta. fold newState.
  assert (Hskip : forall l : list StoreOp, skipn (length ws) (ws ++ l) = l).
  { intros l. rewrite skipn_app, skipn_all, Nat.sub_diag. reflexivity. }
  assert (Hskip0 : skipn (length ws) ws = []) by apply skipn_all.
  pose proof (durable_dueb_spec sample d) as Hspec.
  destruct (durable_dueb sample d).
  - assert (Hd : durable_due sample d) by (apply Hspec; reflexivity).
    eexists; eexists; split; [reflexivity |]. cbn [durable writes].
    split; [tauto |]. split; [tauto |]. split.
    + split; [trivial |]. intros _.
      destruct (_ <? _); rewrite <- ?app_assoc, Hskip; cbn; auto.
    + intros Hn; contradiction.
  - assert (Hd : ~ durable_due sample d)
      by (intros H; apply Hspec in H; discriminate).
    eexists; eexists; split; [reflexivity |]. cbn [durable writes].
    assert (Hw : forall s, ~ In (PgSave s) (skipn (length ws)
              (if created_at h <? Telemetry.created_at sample
               then ws ++ [RedisSet newState] else ws))).
    { intros s. destruct (_ <? _); rewrite ?Hskip, ?Hskip0; cbn;
        intuition discriminate. }
    split; [split; [discriminate | contradiction] |].
    split.
    { split; [| contradiction]. intros H.
      apply (f_equal (@length State)) in H. rewrite length_app in H.
      cbn in H. lia. }
    split; [split; [intros H; destruct (Hw _ H) | contradiction] |].
    intros _. auto.
Qed.

(** C6. A sample ingested while the hot slot holds a State h: the hot
    slot is overwritten with the derived State iff h's timestamp is
    earlier than the sample's, and what the hot slot holds afterwards is
    the same whatever the durable log contains. *)
Theorem hot_overwritten_iff_newer
    (sample : Telemetry.t) (h : State) (d : list State) (ws : list StoreOp) :
  let w := mk_World (Some h) d ws in
  let newState := derive sample (Some h) in
  exists status w',
    ingest sample w = (Ok status, w')
    /\ (In (RedisSet newState) (skipn (length ws) (writes w'))
        <-> created_at h < Telemetry.created_at sample)
    /\ (created_at h < Telemetry.created_at sample -> hot w' = Some newState)
    /\ (~ created_at h < Telemetry.created_at sample ->
        hot w' = Some h
        /\ forall s, ~ In (RedisSet s) (skipn (length ws) (writes w')))
    /\ (forall d2 ws2,
          hot (snd (ingest sample (mk_World (Some h) d2 ws2))) = hot w').
Proof.
  intros w newState. subst w.
  assert (Hskip : forall l : list StoreOp, skipn (length ws) (ws ++ l) = l).
  { intros l. rewrite skipn_app, skipn_all, Nat.sub_diag. reflexivity. }
  assert (Hskip0 : skipn (length ws) ws = []) by apply skipn_all.
  assert (Hind : forall d2 ws2,
    hot (snd (ingest sample (mk_World (Some h) d2 ws2)))
    = if created_at h <? Telemetry.created_at sample
      then Some newState else Some h).
  { intros d2 ws2. rewrite ingest_present. cbn zeta.
    destruct (durable_dueb sample d2); reflexivity. }
  destruct (ingest sample (mk_World (Some h) d ws)) as [r w'] eqn:E.
  pose proof (Hind d ws) as Hhot. rewrite E in Hhot. cbn [snd] in Hhot.
  assert (Hfin : forall d2 ws2,
    hot (snd (ingest sample (mk_World (Some h) d2 ws2))) = hot w').
  { intros d2 ws2. rewrite Hind. symmetry. exact Hhot. }
  clear Hind Hhot.
  rewrite ingest_present in E. cbn zeta in E. fold newState in E.
  destruct (Z.ltb_spec (created_at h) (Telemetry.created_at sample)) as [L | G].
  - destruct (durable_dueb sample d); inversion E; subst; clear E;
      eexists; eexists; (split; [reflexivity |]); cbn [writes hot];
      rewrite <- ?app_assoc, Hskip; cbn;
      (split; [tauto |]); (split; [reflexivity |]);
      (split; [intros; lia |]); exact Hfin.
  - destruct (durable_dueb sample d); inversion E; subst; clear E;
      eexists; eexists; (split; [reflexivity |]); cbn [writes hot];
      rewrite ?Hskip, ?Hskip0; cbn;
      (split; [split; [intros Hin; intuition discriminate | lia] |]);
      (split; [intros; lia |]);
      (split; [split; [reflexivity | intros s Hin; intuition discriminate] |]);
      exact Hfin.
Qed.

(** C10. A sample ingested while the hot slot holds a State h that is not
    older than the sample, and the durable log's latest record is within
    REMEMBER_DELAY of the sample: nothing is written to the hot slot or to
    the durable log, and TEMP_SAVED is returned. *)
Theorem stale_sample_writes_nothing
    (sample : Telemetry.t) (h l : State) (d : list State) (ws : list StoreOp) :
  created_at h >= Telemetry.created_at sample ->
  last (map Some d) None = Some l ->
  Telemetry.created_at sample - created_at l
  <= TELEMETRY_REMEMBER_DELAY * 1000000 ->
  ingest sample (mk_World (Some h) d ws)
  = (Ok TEMP_SAVED, mk_World (Some h) d ws).
Proof.
  intros Hh Hl Hd.
  rewrite ingest_present. cbn zeta.
  unfold durable_dueb. rewrite Hl.
  destruct (Z.ltb_spec (created_at h) (Telemetry.created_at sample)); [lia |].
  destruct (Z.ltb_spec (TELEMETRY_REMEMBER_DELAY * 1000000)
              (Telemetry.created_at sample - created_at l)); [lia |].
  reflexivity.
Qed.

(** ** Claims on the operator operations *)

(** [remove_point] on a non-empty hot slot: the State it writes back and
    the exception it ends with. *)
Lemma remove_point_run (h : State) (d : list State) (ws : list StoreOp) :
  let h' := set_laps 0 (set_lap_point_lat None (set_lap_point_lng None h)) in
  remove_point (mk_World (Some h) d ws)
  = (Raise ValidationError, mk_World (Some h') d (ws ++ [RedisSet h'])).
Proof. reflexivity. Qed.

(** C7. [get_current_state], [set_point], [reset_point], [remove_point],
    [reset_distance] and [clear_distance] raise FileNotFoundError exactly
    when the hot slot is empty. *)
Theorem not_found_iff_hot_empty (w : World) :
  (fst (get_current_state w) = Raise FileNotFoundError <-> hot w = None)
  /\ (fst (set_point w) = Raise FileNotFoundError <-> hot w = None)
  /\ (fst (reset_point w) = Raise FileNotFoundError <-> hot w = None)
  /\ (fst (remove_point w) = Raise FileNotFoundError <-> hot w = None)
  /\ (fst (reset_distance w) = Raise FileNotFoundError <-> hot w = None)
  /\ (fst (clear_distance w) = Raise FileNotFoundError <-> hot w = None).
Proof.
  unfold set_point, reset_point, remove_point, reset_distance, clear_distance,
    get_current_state, bind, RedisDB_get, _save_redis, RedisDB_set, raise, ret.
  destruct (hot w) as [h |]; cbn;
    repeat split; intros; solve [discriminate | reflexivity].
Qed.

(** C8. On a non-empty hot slot [remove_point] clears the lap anchor,
    resets laps to 0 and writes the State back to the hot slot, but it
    then raises ValidationError instead of returning a value: [PointSet]
    does not accept an absent coordinate. *)
Theorem remove_point_raises_after_write
    (h : State) (d : list State) (ws : list StoreOp) :
  exists h' w',
    remove_point (mk_World (Some h) d ws) = (Raise ValidationError, w')
    /\ hot w' = Some h'
    /\ writes w' = ws ++ [RedisSet h']
    /\ durable w' = d
    /\ lap_point_lat h' = None /\ lap_point_lng h' = None
    /\ laps h' = 0
    /\ sample_of h' = sample_of h
    /\ distance_travelled h' = distance_travelled h
    /\ speed h' = speed h
    /\ forall p : PointSet,
         fst (remove_point (mk_World (Some h) d ws)) <> Ok p.
Proof.
  eexists; eexists. rewrite remove_point_run. cbn zeta.
  repeat split; discriminate.
Qed.

(** ** Claims on the derivation *)

(** What [update_from_previous] assigns to each derived field. *)
Lemma update_from_previous_fields (self prev : State) :
  let new := update_from_previous self prev in
  speed new
  = PyFloat.div (geodesic_km (position self) (position prev))
      (PyFloat.max (delta self prev) PyFloat.one)
  /\ distance_travelled new
     = PyFloat.add (distance_travelled prev)
         (geodesic_km (position self) (position prev))
  /\ lap_point_lat new = lap_point_lat prev
  /\ lap_point_lng new = lap_point_lng prev
  /\ laps new
     = laps prev
       + match lapAnchor prev with
         | Some anchor =>
             if crossed anchor LAP_ADD_RADIUS_METERS (position prev) (position self)
             then 1 else 0
         | None => 0
         end.
Proof.
  unfold update_from_previous, lapAnchor, crossed, count_laps, position.
  cbn.
  destruct (lap_point_lng prev) as [lo |], (lap_point_lat prev) as [la |];
    cbn; try (repeat split; lia).
  unfold PyFloat.geb, PyFloat.leb.
  destruct (PyFloat.gtb _ _ && SFleb _ _); cbn; repeat split; lia.
Qed.

Lemma of_int_unsigned (n : Z) : 0 <= n -> PyFloat.unsigned (PyFloat.of_int n).
Proof.
  intros Hn. unfold PyFloat.of_int.
  destruct n as [| p | p]; [reflexivity | | lia].
  cbn [binary_normalize]. unfold binary_round.
  destruct (shl_align p 0 _) as [mz ez].
  pose proof (binary_round_aux_sign PyFloat.prec PyFloat.emax false
                (Zpos mz) ez loc_Exact ltac:(lia)) as H.
  destruct (binary_round_aux _ _ _ _ _ _); exact H.
Qed.

(** The elapsed hours computed by [update_from_previous] are never NaN
    and never negative. *)
Lemma delta_unsigned (self prev : State) : PyFloat.unsigned (delta self prev).
Proof.
  unfold delta, PyFloat.int_truediv, PyFloat.div, Datetime.sub.
  pose proof (normalize_ranges (created_at self - created_at prev)) as [Hs _].
  pose proof (of_int_unsigned _ (proj1 Hs)) as Hu.
  change (PyFloat.of_int 3600) with (S754_finite false 7916483719987200 (-41)).
  destruct (PyFloat.of_int _) as [sx | sx | | sx mx ex]; cbn in Hu;
    try contradiction; subst; try reflexivity.
  apply SFdiv_finite_sign.
Qed.

(** 0 divided by [max(delta, 1)] is 0. *)
Lemma div_zero_max_one (x : float) :
  PyFloat.unsigned x ->
  PyFloat.div PyFloat.zero (PyFloat.max x PyFloat.one) = PyFloat.zero.
Proof.
  unfold PyFloat.max, PyFloat.gtb.
  change PyFloat.one with (S754_finite false 4503599627370496 (-52)).
  destruct x as [s | s | | s m e]; cbn [PyFloat.unsigned]; intros H;
    try contradiction; subst; try reflexivity.
  destruct (SFltb _ _); reflexivity.
Qed.

(** The seconds field is the elapsed time only for an elapsed time of
    less than a day that is not negative. *)
Lemma seconds_within_a_day (a b : datetime) :
  0 <= a - b < 86400 * 1000000 ->
  Datetime.seconds (Datetime.sub a b) = (a - b) / 1000000.
Proof.
  intros H. unfold Datetime.sub, Datetime.normalize, Datetime.US_PER_SECOND,
    Datetime.SECONDS_PER_DAY; cbn [Datetime.seconds].
  apply Z.mod_small. split.
  - apply Z.div_pos; lia.
  - apply Z.div_lt_upper_bound; lia.
Qed.

(** The speed [update_from_previous] assigns: the distance over the
    larger of 1 and the seconds field of the elapsed timedelta over 3600. *)
Lemma speed_of_derive (sample : Telemetry.t) (prev : State) :
  speed (derive sample (Some prev))
  = PyFloat.div
      (geodesic_km
         (Telemetry.position_lat sample, Telemetry.position_lng sample)
         (position prev))
      (PyFloat.max
         (PyFloat.int_truediv
            (((Telemetry.created_at sample - created_at prev) / 1000000)
             mod 86400)
            3600)
         PyFloat.one).
Proof.
  destruct (update_from_previous_fields (State_of_telemetry sample) prev)
    as (Hs & _).
  exact Hs.
Qed.

(** C3. With a lap anchor present in the previous State, the derived
    State has one lap more iff the previous position was farther than
    the radius from the anchor and the sample's position is within the
    radius, and the same laps otherwise; with no anchor the laps are
    carried over; so a previous position within the radius adds no lap. *)
Theorem laps_incremented_iff_crossed (sample : Telemetry.t) (prev : State) :
  let new := derive sample (Some prev) in
  let cur := (Telemetry.position_lat sample, Telemetry.position_lng sample) in
  laps new
  = laps prev
    + match lapAnchor prev with
      | Some anchor =>
          if crossed anchor LAP_ADD_RADIUS_METERS (position prev) cur
          then 1 else 0
      | None => 0
      end
  /\ (forall anchor, lapAnchor prev = Some anchor ->
        (laps new = laps prev + 1
         <-> (PyFloat.gtb (geodesic_m (position prev) anchor)
                LAP_ADD_RADIUS_METERS = true
              /\ PyFloat.leb (geodesic_m cur anchor)
                   LAP_ADD_RADIUS_METERS = true))
        /\ (laps new = laps prev \/ laps new = laps prev + 1)
        /\ (crossed anchor LAP_ADD_RADIUS_METERS (position prev) cur = false ->
            laps new = laps prev)
        /\ (PyFloat.leb (geodesic_m (position prev) anchor)
              LAP_ADD_RADIUS_METERS = true ->
            laps new = laps prev))
  /\ (lapAnchor prev = None -> laps new = laps prev)
  /\ lapAnchor new = lapAnchor prev.
Proof.
  intros new cur.
  destruct (update_from_previous_fields (State_of_telemetry sample) prev)
    as (_ & _ & Hla & Hlo & Hl).
  fold (derive sample (Some prev)) in Hl, Hla, Hlo. fold new in Hl, Hla, Hlo.
  change (position (State_of_telemetry sample)) with cur in Hl.
  split; [exact Hl |]. split; [| split].
  - intros anchor Ha. rewrite Ha in Hl.
    assert (Hc : crossed anchor LAP_ADD_RADIUS_METERS (position prev) cur = true
                 <-> PyFloat.gtb (geodesic_m (position prev) anchor)
                       LAP_ADD_RADIUS_METERS = true
                     /\ PyFloat.leb (geodesic_m cur anchor)
                          LAP_ADD_RADIUS_METERS = true)
      by (unfold crossed; apply andb_true_iff).
    rewrite <- Hc.
    assert (Hin : PyFloat.leb (geodesic_m (position prev) anchor)
                    LAP_ADD_RADIUS_METERS = true ->
                  crossed anchor LAP_ADD_RADIUS_METERS (position prev) cur = false).
    { intros Hle. unfold crossed. now rewrite (leb_not_gtb _ _ Hle). }
    destruct (crossed anchor LAP_ADD_RADIUS_METERS (position prev) cur).
    + repeat split; intros; try lia; try discriminate.
      specialize (Hin ltac:(assumption)). discriminate.
    + repeat split; intros; try lia; try discriminate.
  - intros Ha. rewrite Ha in Hl. lia.
  - unfold lapAnchor. now rewrite Hla, Hlo.
Qed.

(** C4. The derived distance travelled is the previous one plus the
    distance between the previous position and the sample's, whatever the
    anchor and the timestamps; when the position has not changed, the
    distance travelled compares equal to the previous one (and stays
    exactly 0 when it was 0) and the speed is 0. *)
Theorem distance_travelled_accumulates (sample : Telemetry.t) (prev : State) :
  (forall a b, geodesic_km a b = geodesic_km b a) ->
  (forall a, geodesic_km a a = PyFloat.zero) ->
  let new := derive sample (Some prev) in
  let cur := (Telemetry.position_lat sample, Telemetry.position_lng sample) in
  distance_travelled new
  = PyFloat.add (distance_travelled prev) (geodesic_km (position prev) cur)
  /\ (cur = position prev ->
      speed new = PyFloat.zero
      /\ (distance_travelled prev <> S754_nan ->
          PyFloat.eqb (distance_travelled new) (distance_travelled prev) = true)
      /\ (distance_travelled prev = PyFloat.zero ->
          distance_travelled new = PyFloat.zero)).
Proof.
  intros Hsym Hrefl new cur.
  destruct (update_from_previous_fields (State_of_telemetry sample) prev)
    as (Hs & Hd & _).
  fold (derive sample (Some prev)) in Hs, Hd. fold new in Hs, Hd.
  change (position (State_of_telemetry sample)) with cur in Hs, Hd.
  split.
  - rewrite Hd, (Hsym cur). reflexivity.
  - intros Heq. rewrite Heq, Hrefl in Hs, Hd. repeat split.
    + rewrite Hs. apply div_zero_max_one, delta_unsigned.
    + intros Hn. rewrite Hd. now apply add_zero_eqb.
    + intros Hz. rewrite Hd, Hz. reflexivity.
Qed.

(** One derivation step keeps laps non-negative and the distance
    travelled a non-negative number, and lowers neither. *)
Lemma update_from_previous_monotone (self prev : State) :
  (forall a b, PyFloat.nonneg (geodesic_km a b)) ->
  0 <= laps prev -> PyFloat.nonneg (distance_travelled prev) ->
  let new := update_from_previous self prev in
  0 <= laps new
  /\ PyFloat.nonneg (distance_travelled new)
  /\ laps prev <= laps new
  /\ PyFloat.leb (distance_travelled prev) (distance_travelled new) = true
  /\ lapAnchor new = lapAnchor prev.
Proof.
  intros Hg Hl Hd new.
  destruct (update_from_previous_fields self prev) as (_ & Hdt & Hla & Hlo & Hlaps).
  fold new in Hdt, Hla, Hlo, Hlaps.
  destruct (add_nonneg (distance_travelled prev)
              (geodesic_km (position self) (position prev)) Hd (Hg _ _))
    as [Hn Hle].
  rewrite <- Hdt in Hn, Hle.
  assert (Hinc : laps prev <= laps new <= laps prev + 1).
  { rewrite Hlaps. destruct (lapAnchor prev); [destruct (crossed _ _ _ _) |]; lia. }
  repeat split; try assumption; try lia.
  unfold lapAnchor. now rewrite Hla, Hlo.
Qed.

(** Every State derived later in a run is at or above the State the run
    started from. *)
Lemma derive_all_above (samples : list Telemetry.t) : forall s0 : State,
  (forall a b, PyFloat.nonneg (geodesic_km a b)) ->
  0 <= laps s0 -> PyFloat.nonneg (distance_travelled s0) ->
  forall s, In s (derive_all s0 samples) ->
    0 <= laps s
    /\ PyFloat.nonneg (distance_travelled s)
    /\ laps s0 <= laps s
    /\ PyFloat.leb (distance_travelled s0) (distance_travelled s) = true
    /\ lapAnchor s = lapAnchor s0.
Proof.
  induction samples as [| t ts IH]; intros s0 Hg Hl Hd s Hin; [destruct Hin |].
  cbn [derive_all] in Hin.
  destruct (update_from_previous_monotone (State_of_telemetry t) s0 Hg Hl Hd)
    as (H1 & H2 & H3 & H4 & H5).
  destruct Hin as [<- | Hin].
  - repeat split; assumption.
  - destruct (IH _ Hg H1 H2 s Hin) as (G1 & G2 & G3 & G4 & G5).
    repeat split; try assumption; try lia.
    + apply (leb_trans_nonneg _ _ _ Hd H2 G2 H4 G4).
    + congruence.
Qed.

(** C9. Along any run of States each derived from the one before it, laps
    is never negative and never decreases, the distance travelled never
    decreases, and the anchor is carried along, given a first State with
    non-negative laps and distance and a distance function that returns
    non-negative numbers. *)
Theorem laps_and_distance_never_decrease
    (s0 : State) (samples : list Telemetry.t) :
  (forall a b, PyFloat.nonneg (geodesic_km a b)) ->
  0 <= laps s0 -> PyFloat.nonneg (distance_travelled s0) ->
  let run := s0 :: derive_all s0 samples in
  (forall s, In s run ->
     0 <= laps s /\ PyFloat.nonneg (distance_travelled s)
     /\ lapAnchor s = lapAnchor s0)
  /\ (forall before a between b after,
        run = before ++ a :: between ++ b :: after ->
        laps a <= laps b
        /\ PyFloat.leb (distance_travelled a) (distance_travelled b) = true).
Proof.
  intros Hg Hl Hd run. subst run. split.
  - intros s [<- | Hin]; [auto |].
    destruct (derive_all_above samples s0 Hg Hl Hd s Hin) as (? & ? & ? & ? & ?).
    auto.
  - revert s0 Hl Hd.
    induction samples as [| t ts IH]; intros s0 Hl Hd before a between b after E.
    + destruct before as [| x [| y before]]; cbn in E; inversion E;
        destruct between; discriminate.
    + cbn [derive_all] in E.
      destruct (update_from_previous_monotone (State_of_telemetry t) s0 Hg Hl Hd)
        as (H1 & H2 & _).
      destruct before as [| x before]; cbn [app] in E; inversion E; subst.
      * assert (Hin : In b (derive_all a (t :: ts))).
        { cbn [derive_all]. rewrite H3. apply in_or_app. right. left. reflexivity. }
        destruct (derive_all_above (t :: ts) a Hg Hl Hd b Hin)
          as (_ & _ & G3 & G4 & _).
        auto.
      * apply (IH _ H1 H2 before a between b after). assumption.
Qed.

(** [save_current_state] leaves the stores as [ingest] does. *)
Lemma save_current_state_ingest (sample : Telemetry.t) (w : World) :
  snd (save_current_state sample w) = snd (ingest sample w).
Proof.
  unfold save_current_state, ingest, bind.
  destruct (from_telemetry sample w) as [[st | e] w1]; [| reflexivity].
  destruct (save st w1) as [[r | e] w2]; reflexivity.
Qed.

(** Whatever the calls made since the stores were empty, the State in the
    hot slot has non-negative laps and a non-negative distance travelled. *)
Lemma run_calls_well_formed (cs : list Call) : forall w : World,
  (forall a b, PyFloat.nonneg (geodesic_km a b)) ->
  match hot w with Some s => well_formed s | None => True end ->
  match hot (run_calls cs w) with Some s => well_formed s | None => True end.
Proof.
  induction cs as [| c cs IH]; intros w Hg Hw; [exact Hw |].
  cbn [run_calls fold_left]. apply IH; [exact Hg |].
  destruct w as [[h |] d ws]; cbn [hot] in Hw.
  - destruct Hw as [Hl Hd].
    destruct c; cbn [run_call]; try (cbn; split; cbn; solve [lia | auto]).
    rewrite save_current_state_ingest, ingest_present. cbn zeta.
    destruct (update_from_previous_monotone (State_of_telemetry sample) h Hg Hl Hd)
      as (H1 & H2 & _).
    destruct (durable_dueb sample d), (created_at h <? Telemetry.created_at sample);
      cbn [hot derive]; split; assumption.
  - destruct c; cbn [run_call]; try exact I.
    rewrite save_current_state_ingest. unfold ingest, bind.
    rewrite from_telemetry_derive. cbn [hot derive]. rewrite save_absent.
    cbn. split; cbn; [lia | exact I].
Qed.

(** ** Further properties: the operator operations *)

Lemma run_call_operator_present (c : Call) (h : State) (d : list State)
    (ws : list StoreOp) :
  is_operator c = true ->
  run_call c (mk_World (Some h) d ws)
  = mk_World (Some (operator_update c h)) d
      (ws ++ [RedisSet (operator_update c h)]).
Proof. destruct c; intros H; try discriminate H; reflexivity. Qed.

Lemma run_call_operator_absent (c : Call) (d : list State) (ws : list StoreOp) :
  is_operator c = true ->
  run_call c (mk_World None d ws) = mk_World None d ws.
Proof. destruct c; intros H; try discriminate H; reflexivity. Qed.

Lemma run_call_ingest_absent (t : Telemetry.t) (d : list State)
    (ws : list StoreOp) :
  run_call (CallIngest t) (mk_World None d ws)
  = mk_World (Some (State_of_telemetry t)) (d ++ [State_of_telemetry t])
      (ws ++ [RedisSet (State_of_telemetry t); PgSave (State_of_telemetry t)]).
Proof.
  cbn [run_call]. rewrite save_current_state_ingest. unfold ingest, bind.
  rewrite from_telemetry_derive. cbn [hot derive]. rewrite save_absent.
  reflexivity.
Qed.

Lemma run_call_ingest_present (t : Telemetry.t) (h : State) (d : list State)
    (ws : list StoreOp) :
  run_call (CallIngest t) (mk_World (Some h) d ws)
  = let new := derive t (Some h) in
    let newer := created_at h <? Telemetry.created_at t in
    mk_World (if newer then Some new else Some h)
      (if durable_dueb t d then d ++ [new] else d)
      ((if newer then ws ++ [RedisSet new] else ws)
       ++ (if durable_dueb t d then [PgSave new] else [])).
Proof.
  cbn [run_call]. rewrite save_current_state_ingest, ingest_present.
  cbn zeta. destruct (durable_dueb t d); cbn [snd]; rewrite ?app_nil_r;
    reflexivity.
Qed.

(** X1. On a non-empty hot slot [set_point] returns the position of the
    hot State as a PointSet, writes the State back with that position as
    lap anchor and laps 0, keeps every other field, and leaves the durable
    log alone. *)
Theorem set_point_anchors_current_position
    (h : State) (d : list State) (ws : list StoreOp) :
  exists h',
    set_point (mk_World (Some h) d ws)
    = (Ok (mk_PointSet (position_lng h) (position_lat h)),
       mk_World (Some h') d (ws ++ [RedisSet h']))
    /\ lapAnchor h' = Some (position h)
    /\ laps h' = 0
    /\ sample_of h' = sample_of h
    /\ speed h' = speed h
    /\ distance_travelled h' = distance_travelled h.
Proof.
  exists (operator_update CallSetPoint h). repeat split.
Qed.

(** X2. On a non-empty hot slot [reset_point] returns normally after
    writing the State back with no lap anchor and laps 0, every other
    field kept; in every state of the stores [remove_point] leaves exactly
    the stores [reset_point] leaves. *)
Theorem reset_point_clears_anchor (h : State) (d : list State) (ws : list StoreOp) :
  (exists h',
     reset_point (mk_World (Some h) d ws)
     = (Ok tt, mk_World (Some h') d (ws ++ [RedisSet h']))
     /\ lap_point_lat h' = None /\ lap_point_lng h' = None
     /\ laps h' = 0
     /\ sample_of h' = sample_of h
     /\ speed h' = speed h
     /\ distance_travelled h' = distance_travelled h)
  /\ (forall w : World, snd (remove_point w) = snd (reset_point w)).
Proof.
  split.
  - exists (operator_update CallResetPoint h). repeat split.
  - intros [[x |] d' ws']; reflexivity.
Qed.

(** X3. [reset_distance] and [clear_distance] are the same operation; on a
    non-empty hot slot it writes the State back with distance travelled
    0.0 and keeps laps, lap anchor, speed and the sample fields. *)
Theorem reset_distance_zeroes_distance_only
    (h : State) (d : list State) (ws : list StoreOp) :
  (forall w : World, reset_distance w = clear_distance w)
  /\ exists h',
      reset_distance (mk_World (Some h) d ws)
      = (Ok tt, mk_World (Some h') d (ws ++ [RedisSet h']))
      /\ distance_travelled h' = PyFloat.zero
      /\ laps h' = laps h
      /\ lap_point_lat h' = lap_point_lat h
      /\ lap_point_lng h' = lap_point_lng h
      /\ speed h' = speed h
      /\ sample_of h' = sample_of h.
Proof.
  split; [reflexivity |].
  exists (operator_update CallResetDistance h). repeat split.
Qed.

Lemma operator_update_keeps (c : Call) (h : State) :
  sample_of (operator_update c h) = sample_of h
  /\ speed (operator_update c h) = speed h.
Proof. destruct c; split; reflexivity. Qed.

(** X4. A run of operator calls, whatever their number and order, never
    changes the durable log and never saves to it; it changes nothing at
    all while the hot slot is empty, and otherwise keeps the sample fields
    and the speed of the hot State. *)
Theorem operator_calls_leave_durable_log (cs : list Call) (w : World) :
  forallb is_operator cs = true ->
  durable (run_calls cs w) = durable w
  /\ (forall s, In (PgSave s) (writes (run_calls cs w)) -> In (PgSave s) (writes w))
  /\ (hot w = None -> run_calls cs w = w)
  /\ (forall h, hot w = Some h ->
        exists h', hot (run_calls cs w) = Some h'
                   /\ sample_of h' = sample_of h /\ speed h' = speed h).
Proof.
  revert w. induction cs as [| c cs IH]; intros w Hop.
  - repeat split; auto. intros h Hh. exists h. auto.
  - cbn [forallb] in Hop. apply andb_prop in Hop as [Hc Hcs].
    cbn [run_calls fold_left]. fold (run_calls cs (run_call c w)).
    destruct (IH (run_call c w) Hcs) as (I1 & I2 & I3 & I4).
    destruct w as [[h |] d ws].
    + rewrite (run_call_operator_present c h d ws Hc) in *.
      cbn [durable writes hot] in *. repeat split.
      * exact I1.
      * intros s Hin. apply I2 in Hin. apply in_app_or in Hin.
        destruct Hin as [Hin | [Hin | []]]; [exact Hin | discriminate Hin].
      * discriminate.
      * intros h0 Hh0. inversion Hh0; subst h0.
        destruct (I4 _ eq_refl) as (h' & E1 & E2 & E3).
        destruct (operator_update_keeps c h) as [K1 K2].
        exists h'. repeat split; congruence.
    + rewrite (run_call_operator_absent c d ws Hc) in *.
      cbn [durable writes hot] in *. repeat split; auto; discriminate.
Qed.

(** X5. On the hot State the operator calls compose as follows, where
    [operator_update c h] is the State call [c] leaves in a hot slot that
    held [h]: a call made twice writes the State it writes when made once; clearing the
    anchor after setting it gives the State that clearing alone gives;
    resetting the distance and setting or clearing the anchor give the
    same State in either order. *)
Theorem operator_calls_compose (h : State) :
  (forall c, operator_update c (operator_update c h) = operator_update c h)
  /\ operator_update CallResetPoint (operator_update CallSetPoint h)
     = operator_update CallResetPoint h
  /\ operator_update CallRemovePoint (operator_update CallSetPoint h)
     = operator_update CallRemovePoint h
  /\ operator_update CallResetDistance (operator_update CallSetPoint h)
     = operator_update CallSetPoint (operator_update CallResetDistance h)
  /\ operator_update CallResetDistance (operator_update CallResetPoint h)
     = operator_update CallResetPoint (operator_update CallResetDistance h)
  /\ (forall c d ws,
        is_operator c = true ->
        hot (run_call c (mk_World (Some h) d ws)) = Some (operator_update c h))
  /\ (forall c1 c2 d ws,
        is_operator c1 = true -> is_operator c2 = true ->
        hot (run_calls [c1; c2] (mk_World (Some h) d ws))
        = Some (operator_update c2 (operator_update c1 h))).
Proof.
  repeat split.
  - intros c. destruct c, h; reflexivity.
  - intros c d ws H1. rewrite (run_call_operator_present c h d ws H1).
    reflexivity.
  - intros c1 c2 d ws H1 H2. cbn [run_calls fold_left].
    rewrite (run_call_operator_present c1 h d ws H1).
    rewrite (run_call_operator_present c2 _ _ _ H2). reflexivity.
Qed.

(** X6. The sample that follows [set_point] never counts a lap, provided
    a position is not farther than the radius from itself: the anchor is
    the previous position, so the previous distance is not above the
    radius. *)
Theorem no_lap_right_after_set_point
    (h : State) (d : list State) (ws : list StoreOp) (sample : Telemetry.t) :
  PyFloat.gtb (geodesic_m (position h) (position h)) LAP_ADD_RADIUS_METERS
  = false ->
  exists h1,
    hot (snd (set_point (mk_World (Some h) d ws))) = Some h1
    /\ lapAnchor h1 = Some (position h)
    /\ laps (derive sample (Some h1)) = 0
    /\ lapAnchor (derive sample (Some h1)) = Some (position h).
Proof.
  intros Hself. exists (operator_update CallSetPoint h).
  split; [reflexivity |]. split; [reflexivity |].
  destruct (update_from_previous_fields (State_of_telemetry sample)
              (operator_update CallSetPoint h)) as (_ & _ & Hla & Hlo & Hl).
  fold (derive sample (Some (operator_update CallSetPoint h))) in Hl, Hla, Hlo.
  split.
  - rewrite Hl.
    change (lapAnchor (operator_update CallSetPoint h)) with (Some (position h)).
    change (laps (operator_update CallSetPoint h)) with 0.
    change (position (operator_update CallSetPoint h)) with (position h).
    unfold crossed. rewrite Hself. reflexivity.
  - unfold lapAnchor. rewrite Hla, Hlo. reflexivity.
Qed.

(** ** Further properties: runs of calls on the stores *)

Lemma run_call_present_shape (c : Call) (h : State) (d : list State)
    (ws : list StoreOp) :
  exists h1 d1 ws1,
    run_call c (mk_World (Some h) d ws) = mk_World (Some h1) d1 ws1
    /\ created_at h <= created_at h1
    /\ (d1 = d
        \/ (is_operator c = false
            /\ exists s, d1 = d ++ [s]
                /\ match last (map Some d) None with
                   | Some l =>
                       created_at s - created_at l
                       > TELEMETRY_REMEMBER_DELAY * 1000000
                   | None => True
                   end)).
Proof.
  destruct (is_operator c) eqn:Hc.
  - rewrite (run_call_operator_present c h d ws Hc).
    eexists; eexists; eexists. split; [reflexivity |]. split; [| now left].
    destruct (operator_update_keeps c h) as [K _].
    change (created_at (operator_update c h))
      with (Telemetry.created_at (sample_of (operator_update c h))).
    rewrite K. cbn. lia.
  - destruct c as [t | | | | |]; try discriminate Hc.
    rewrite run_call_ingest_present. cbn zeta.
    exists (if created_at h <? Telemetry.created_at t
            then derive t (Some h) else h).
    exists (if durable_dueb t d then d ++ [derive t (Some h)] else d).
    exists ((if created_at h <? Telemetry.created_at t
             then ws ++ [RedisSet (derive t (Some h))] else ws)
            ++ (if durable_dueb t d then [PgSave (derive t (Some h))] else [])).
    split.
    { destruct (created_at h <? Telemetry.created_at t); reflexivity. }
    split.
    + destruct (Z.ltb_spec (created_at h) (Telemetry.created_at t)).
      * rewrite created_at_derive. lia.
      * lia.
    + destruct (durable_dueb t d) eqn:Hd; [right | now left].
      split; [reflexivity |]. eexists. split; [reflexivity |].
      apply durable_dueb_spec in Hd. unfold durable_due in Hd.
      rewrite created_at_derive.
      destruct (last (map Some d) None); exact Hd.
Qed.

(** X7. Once the hot slot holds a State, no run of calls empties it, and
    the timestamp of the State it holds never goes back. *)
Theorem hot_slot_never_emptied_nor_older
    (cs : list Call) (h : State) (d : list State) (ws : list StoreOp) :
  exists h',
    hot (run_calls cs (mk_World (Some h) d ws)) = Some h'
    /\ created_at h <= created_at h'.
Proof.
  revert h d ws. induction cs as [| c cs IH]; intros h d ws.
  - exists h. split; [reflexivity | lia].
  - cbn [run_calls fold_left].
    destruct (run_call_present_shape c h d ws) as (h1 & d1 & ws1 & E & Hle & _).
    rewrite E. destruct (IH h1 d1 ws1) as (h' & E' & Hle').
    exists h'. split; [exact E' | lia].
Qed.

Lemma run_call_durable (c : Call) (w : World) :
  durable (run_call c w) = durable w
  \/ (is_operator c = false /\ exists s, durable (run_call c w) = durable w ++ [s]).
Proof.
  destruct w as [[h |] d ws].
  - destruct (run_call_present_shape c h d ws)
      as (h1 & d1 & ws1 & E & _ & [-> | (Hc & s & -> & _)]); rewrite E;
      cbn [durable]; [now left | right; split; [exact Hc | now exists s]].
  - destruct (is_operator c) eqn:Hc.
    + rewrite (run_call_operator_absent c d ws Hc). now left.
    + destruct c as [t | | | | |]; try discriminate Hc.
      rewrite run_call_ingest_absent. right. split; [reflexivity |].
      now eexists.
Qed.

(** X8. The durable log is append-only: after any run of calls the log
    starts with what it held before, and it has grown by at most one
    record per ingested sample. *)
Theorem durable_log_append_only (cs : list Call) (w : World) :
  exists l,
    durable (run_calls cs w) = durable w ++ l
    /\ (length l <= length (filter (fun c => negb (is_operator c)) cs))%nat.
Proof.
  revert w. induction cs as [| c cs IH]; intros w.
  - exists []. split; [now rewrite app_nil_r | cbn; lia].
  - cbn [run_calls fold_left filter].
    destruct (IH (run_call c w)) as (l & E & Hl). fold (run_calls cs (run_call c w)).
    destruct (run_call_durable c w) as [Hd | (Hc & s & Hd)]; rewrite Hd in E.
    + exists l. split; [exact E |].
      destruct (negb (is_operator c)); cbn [length]; lia.
    + exists (s :: l). rewrite <- app_assoc in E. split; [exact E |].
      rewrite Hc. cbn [negb length]. lia.
Qed.

Lemma spaced_app_last (d : list State) (s : State) :
  spaced (d ++ [s])
  <-> spaced d
      /\ match last (map Some d) None with
         | Some l =>
             created_at s - created_at l > TELEMETRY_REMEMBER_DELAY * 1000000
         | None => True
         end.
Proof.
  induction d as [| a [| b r] IH].
  - cbn. tauto.
  - cbn. tauto.
  - change (spaced ((a :: b :: r) ++ [s]))
      with (created_at b - created_at a > TELEMETRY_REMEMBER_DELAY * 1000000
            /\ spaced ((b :: r) ++ [s])).
    change (spaced (a :: b :: r))
      with (created_at b - created_at a > TELEMETRY_REMEMBER_DELAY * 1000000
            /\ spaced (b :: r)).
    change (last (map Some (a :: b :: r)) None)
      with (last (map Some (b :: r)) None).
    tauto.
Qed.

(** X9. Durable writes are throttled: if the log is empty whenever the hot
    slot is, and every record of the log is more than the remember delay
    after the one before it, the same holds after any run of calls; so it
    holds of every log built up from empty stores. *)
Theorem durable_log_stays_spaced (cs : list Call) (w : World) :
  (hot w = None -> durable w = []) ->
  spaced (durable w) ->
  spaced (durable (run_calls cs w))
  /\ (hot (run_calls cs w) = None -> durable (run_calls cs w) = []).
Proof.
  revert w. induction cs as [| c cs IH]; intros w Hn Hs; [auto |].
  cbn [run_calls fold_left]. fold (run_calls cs (run_call c w)).
  destruct w as [[h |] d ws]; cbn [hot durable] in Hn, Hs.
  - destruct (run_call_present_shape c h d ws)
      as (h1 & d1 & ws1 & E & _ & Hd).
    rewrite E. apply IH; cbn [hot durable]; [discriminate |].
    destruct Hd as [-> | (_ & s & -> & Hl)]; [exact Hs |].
    apply spaced_app_last. auto.
  - rewrite (Hn eq_refl). destruct (is_operator c) eqn:Hc.
    + rewrite (run_call_operator_absent c [] ws Hc).
      apply IH; cbn [hot durable]; auto. exact I.
    + destruct c as [t | | | | |]; try discriminate Hc.
      rewrite run_call_ingest_absent.
      apply IH; cbn [hot durable]; [discriminate | cbn; auto].
Qed.




(** ** Further properties: speed, laps and runs of samples *)

Lemma max_one_at_least_one (x : float) :
  PyFloat.unsigned x ->
  PyFloat.leb PyFloat.one (PyFloat.max x PyFloat.one) = true.
Proof.
  intros Hx. unfold PyFloat.max, PyFloat.gtb, SFltb.
  destruct (SFcompare x PyFloat.one) as [[] |] eqn:E.
  - unfold PyFloat.leb, SFleb. now rewrite (SFcompare_antisym x PyFloat.one), E.
  - reflexivity.
  - unfold PyFloat.leb, SFleb. now rewrite (SFcompare_antisym x PyFloat.one), E.
  - destruct x as [s | s | | s m e]; cbn in Hx; try contradiction; subst;
      discriminate E.
Qed.

(** X13. The denominator of the speed is a number not below 1, whatever
    the two timestamps: it is never zero and never NaN, so the division
    cannot fail. *)
Theorem speed_denominator_at_least_one (self prev : State) :
  let denominator := PyFloat.max (delta self prev) PyFloat.one in
  PyFloat.leb PyFloat.one denominator = true
  /\ denominator <> S754_nan
  /\ (forall s, denominator <> S754_zero s)
  /\ speed (update_from_previous self prev)
     = PyFloat.div (geodesic_km (position self) (position prev)) denominator.
Proof.
  intros denominator.
  pose proof (max_one_at_least_one _ (delta_unsigned self prev)) as H.
  fold denominator in H.
  repeat split.
  - exact H.
  - intros E. rewrite E in H. discriminate H.
  - intros s E. rewrite E in H. discriminate H.
  - apply update_from_previous_fields.
Qed.

Lemma float_same_eq (x y : float) : float_same x y = true -> x = y.
Proof.
  destruct x as [a | a | | a m e], y as [b | b | | b n f]; cbn;
    try discriminate; try reflexivity.
  - intros H. apply eqb_prop in H. congruence.
  - intros H. apply eqb_prop in H. congruence.
  - intros H. apply andb_prop in H as [H He]. apply andb_prop in H as [Hs Hm].
    apply eqb_prop in Hs. apply Pos.eqb_eq in Hm. apply Z.eqb_eq in He.
    congruence.
Qed.

Lemma iter_pos_shr_1_exact (p : positive) : forall a : Z,
  iter_pos shr_1 p (Build_shr_record (a * 2 ^ Zpos p) false false)
  = Build_shr_record a false false.
Proof.
  assert (H1 : forall a : Z,
    shr_1 (Build_shr_record (a * 2) false false) = Build_shr_record a false false).
  { intros a0. rewrite Z.mul_comm. destruct a0; reflexivity. }
  induction p as [p IH | p IH |]; intros a; cbn [iter_pos].
  - replace (a * 2 ^ Z.pos p~1) with ((a * 2 ^ Z.pos p * 2 ^ Z.pos p) * 2).
    + rewrite H1, IH, IH. reflexivity.
    + rewrite (Pos2Z.inj_xI p).
      replace (2 * Z.pos p + 1) with (Z.pos p + Z.pos p + 1) by lia.
      rewrite !Z.pow_add_r, Z.pow_1_r by lia. ring.
  - replace (a * 2 ^ Z.pos p~0) with ((a * 2 ^ Z.pos p) * 2 ^ Z.pos p).
    + rewrite IH, IH. reflexivity.
    + rewrite (Pos2Z.inj_xO p).
      replace (2 * Z.pos p) with (Z.pos p + Z.pos p) by lia.
      rewrite Z.pow_add_r by lia. ring.
  - rewrite Z.pow_1_r. apply H1.
Qed.

Lemma shr_exact (a e n : Z) :
  0 <= n ->
  shr (Build_shr_record (a * 2 ^ n) false false) e n
  = (Build_shr_record a false false, e + n).
Proof.
  intros Hn. unfold shr. destruct n as [| p | p]; try lia.
  - rewrite Z.pow_0_r, Z.mul_1_r, Z.add_0_r. reflexivity.
  - rewrite iter_pos_shr_1_exact. reflexivity.
Qed.

(** Dividing a binary64 number by 1.0 gives the number back. *)
Lemma div_one_exact (x : float) :
  valid_binary PyFloat.prec PyFloat.emax x = true ->
  PyFloat.div x PyFloat.one = x.
Proof.
  change PyFloat.one with (S754_finite false 4503599627370496 (-52)).
  destruct x as [[] | [] | | s m e]; try reflexivity.
  cbn [valid_binary]. unfold bounded, canonical_mantissa. intros Hb.
  apply andb_prop in Hb as [Hc Hle].
  apply Z.eqb_eq in Hc. apply Z.leb_le in Hle.
  change (Z.pos (digits2_pos m)) with (Zdigits2 (Zpos m)) in Hc.
  unfold PyFloat.div, SFdiv, SFdiv_core_binary.
  change (Zdigits2 (Z.pos 4503599627370496)) with 53.
  remember (Zdigits2 (Zpos m)) as d1 eqn:Hd1.
  remember (Z.min (fexp PyFloat.prec PyFloat.emax (d1 + e - (53 + -52))) (e - -52))
    as e' eqn:He'.
  assert (Hd1pos : 1 <= d1).
  { subst d1. rewrite Zdigits2_log2 by lia.
    pose proof (Z.log2_nonneg (Zpos m)). lia. }
  assert (Hr : SpecFloat.emin PyFloat.prec PyFloat.emax <= e' <= e).
  { unfold fexp, SpecFloat.emin, PyFloat.prec, PyFloat.emax in *. lia. }
  remember (e - -52 - e') as sh eqn:Hsh.
  destruct sh as [| p | p]; try lia.
  rewrite Z.shiftl_mul_pow2 by lia.
  assert (Hsplit : Z.pos m * 2 ^ Z.pos p
                   = (Z.pos m * 2 ^ (e - e')) * Z.pos 4503599627370496).
  { change (Z.pos 4503599627370496) with (2 ^ 52).
    rewrite <- Z.mul_assoc, <- Z.pow_add_r by lia. f_equal. f_equal. lia. }
  pose proof (Z.div_mul (Z.pos m * 2 ^ (e - e')) (Z.pos 4503599627370496)
                ltac:(lia)) as Hq.
  pose proof (Z.mod_mul (Z.pos m * 2 ^ (e - e')) (Z.pos 4503599627370496)
                ltac:(lia)) as Hm.
  rewrite <- Hsplit in Hq, Hm. unfold Z.div in Hq. unfold Z.modulo in Hm.
  destruct (Z.div_eucl (Z.pos m * 2 ^ Z.pos p) (Z.pos 4503599627370496))
    as [q r].
  subst q r.
  change (new_location (Z.pos 4503599627370496) 0) with loc_Exact.
  unfold binary_round_aux, shr_fexp.
  rewrite Zdigits2_mul_pow2 by lia. rewrite <- Hd1.
  replace (d1 + (e - e') + e') with (d1 + e) by ring.
  rewrite Hc. cbn [shr_record_of_loc].
  rewrite shr_exact by lia.
  cbn [shr_m loc_of_shr_record round_nearest_even].
  rewrite <- Hd1.
  replace (e' + (e - e')) with e by ring.
  rewrite Hc, Z.sub_diag. cbn [shr shr_m].
  apply Z.leb_le in Hle. rewrite Hle.
  destruct s; reflexivity.
Qed.

Lemma denominator_one_table :
  forallb
    (fun s : nat =>
       float_same
         (PyFloat.max (PyFloat.int_truediv (Z.of_nat s) 3600) PyFloat.one)
         PyFloat.one)
    (seq 0 3601)
  = true.
Proof. vm_compute. reflexivity. Qed.

(** X14. When the sample is between 0 and 3600 seconds (and any fraction
    of a second) after the previous State, the denominator of the speed is
    exactly 1.0, and the speed is the distance in kilometres itself, bit
    for bit, not a rate over the elapsed time. *)
Theorem speed_is_distance_within_an_hour (self prev : State) :
  0 <= created_at self - created_at prev < 3601 * 1000000 ->
  valid_binary PyFloat.prec PyFloat.emax
    (geodesic_km (position self) (position prev)) = true ->
  PyFloat.max (delta self prev) PyFloat.one = PyFloat.one
  /\ speed (update_from_previous self prev)
     = geodesic_km (position self) (position prev).
Proof.
  intros Hr Hv.
  assert (Hd : PyFloat.max (delta self prev) PyFloat.one = PyFloat.one).
  { unfold delta. rewrite seconds_within_a_day by lia.
    remember ((created_at self - created_at prev) / 1000000) as secs eqn:Es.
    assert (Hs : 0 <= secs < 3601).
    { subst secs. split; [apply Z.div_pos; lia |].
      apply Z.div_lt_upper_bound; lia. }
    pose proof denominator_one_table as T.
    rewrite forallb_forall in T.
    specialize (T (Z.to_nat secs)).
    rewrite Z2Nat.id in T by lia.
    apply float_same_eq, T, in_seq. lia. }
  split; [exact Hd |].
  destruct (update_from_previous_fields self prev) as (Hs & _).
  rewrite Hs, Hd. apply div_one_exact. exact Hv.
Qed.

(** X15. Moving the timestamp of a sample by a whole number of days,
    forwards or backwards, changes nothing in the derived State but the
    timestamp: speed, distance travelled, laps and anchor are the same. *)
Theorem derived_state_ignores_whole_days
    (self self' prev : State) (k : Z) :
  created_at self' = created_at self + k * 86400000000 ->
  position self' = position self ->
  let new := update_from_previous self prev in
  let new' := update_from_previous self' prev in
  delta self' prev = delta self prev
  /\ speed new' = speed new
  /\ distance_travelled new' = distance_travelled new
  /\ laps new' = laps new
  /\ lapAnchor new' = lapAnchor new.
Proof.
  intros Ht Hp new new'.
  assert (Hd : delta self' prev = delta self prev).
  { unfold delta, Datetime.sub, Datetime.normalize, Datetime.US_PER_SECOND,
      Datetime.SECONDS_PER_DAY. cbn [Datetime.seconds]. rewrite Ht.
    replace (created_at self + k * 86400000000 - created_at prev)
      with (created_at self - created_at prev + (k * 86400) * 1000000) by ring.
    rewrite Z.div_add by lia. rewrite Z.mod_add by lia. reflexivity. }
  destruct (update_from_previous_fields self prev) as (A1 & A2 & A3 & A4 & A5).
  destruct (update_from_previous_fields self' prev) as (B1 & B2 & B3 & B4 & B5).
  fold new in A1, A2, A3, A4, A5. fold new' in B1, B2, B3, B4, B5.
  rewrite Hp, Hd in B1. rewrite Hp in B2, B5.
  repeat split; try congruence.
  unfold lapAnchor. rewrite A3, A4, B3, B4. reflexivity.
Qed.

Lemma last_cons {A : Type} (a : A) (l : list A) (d : A) :
  last (a :: l) d = last l a.
Proof.
  revert a d. induction l as [| b l IH]; intros a d; [reflexivity |].
  change (last (a :: b :: l) d) with (last (b :: l) d).
  rewrite (IH b d), (IH b a). reflexivity.
Qed.

Lemma position_update_from_previous (self prev : State) :
  position (update_from_previous self prev) = position self.
Proof.
  pose proof (sample_of_update_from_previous self prev) as H.
  unfold position.
  change (position_lat (update_from_previous self prev))
    with (Telemetry.position_lat (sample_of (update_from_previous self prev))).
  change (position_lng (update_from_previous self prev))
    with (Telemetry.position_lng (sample_of (update_from_previous self prev))).
  rewrite H. reflexivity.
Qed.

(** X16. Along a run of States each derived from the one before it, the
    laps gained are the number of times the position went from farther
    than the radius from the anchor to within it; with no anchor (or only
    one of its coordinates) no lap is gained. *)
Theorem laps_gained_count_crossings (samples : list Telemetry.t) (s0 : State) :
  laps (last (derive_all s0 samples) s0)
  = laps s0
    + match lapAnchor s0 with
      | Some anchor =>
          crossings anchor (position s0) (map sample_position samples)
      | None => 0
      end.
Proof.
  revert s0. induction samples as [| t ts IH]; intros s0.
  - cbn. destruct (lapAnchor s0); lia.
  - cbn [derive_all map]. rewrite last_cons, IH.
    destruct (update_from_previous_fields (State_of_telemetry t) s0)
      as (_ & _ & Hla & Hlo & Hl).
    assert (Ha : lapAnchor (update_from_previous (State_of_telemetry t) s0)
                 = lapAnchor s0) by (unfold lapAnchor; now rewrite Hla, Hlo).
    rewrite Ha, Hl, position_update_from_previous.
    change (position (State_of_telemetry t)) with (sample_position t).
    destruct (lapAnchor s0) as [anchor |]; cbn [crossings]; lia.
Qed.



(** ** Further properties: races *)

(** X18. [Race.start_new_race] raises FileNotFoundError and adds nothing
    to the session when the hot slot is empty; otherwise it returns a race
    that starts now at the position of the hot State, with no id, finish
    time or boat name yet, adds that race to the session and leaves the
    stores as they were. *)
Theorem start_new_race_uses_hot_position (now : datetime) (ctx : AppContext) :
  (hot (stores ctx) = None ->
     start_new_race now ctx = (Raised (StateError FileNotFoundError), ctx))
  /\ (forall h, hot (stores ctx) = Some h ->
       exists race,
         start_new_race now ctx
         = (Returned race,
            mk_AppContext (stores ctx) (session_added ctx ++ [race]))
         /\ Race.start_time race = Some now
         /\ Race.start_pos_lat race = Some (position_lat h)
         /\ Race.start_pos_lng race = Some (position_lng h)
         /\ Race.finish_time race = None
         /\ Race.id race = None
         /\ Race.boat_name race = None).
Proof.
  destruct ctx as [[[h0 |] d ws] added]; cbn [stores hot]; split.
  - discriminate.
  - intros h E. inversion E; subst h0. eexists. repeat split.
  - reflexivity.
  - discriminate.
Qed.

(** X19. [Race.stop] never returns normally: it sets the finish time and
    adds the race to the session, then raises FileNotFoundError when the
    hot slot is empty and ValueError when it holds a State, because
    [State] has no field [race_id]; the stores are left as they were.  In
    particular a race that [start_new_race] returned cannot be stopped
    without ValueError. *)
Theorem stop_always_raises (now : datetime) (self : Race.t) (ctx : AppContext) :
  exists e finished,
    stop now self ctx
    = (Raised e, mk_AppContext (stores ctx) (session_added ctx ++ [finished]))
    /\ Race.finish_time finished = Some now
    /\ Race.start_time finished = Race.start_time self
    /\ Race.start_pos_lat finished = Race.start_pos_lat self
    /\ Race.start_pos_lng finished = Race.start_pos_lng self
    /\ (e = StateError FileNotFoundError <-> hot (stores ctx) = None)
    /\ (e = ValueError <-> hot (stores ctx) <> None)
    /\ (forall now0 ctx0 race,
          start_new_race now0 ctx0 = (Returned race, ctx) ->
          fst (stop now race ctx) = Raised ValueError).
Proof.
  assert (Hstop : forall (r : Race.t) (c : AppContext),
    stop now r c
    = (Raised (match hot (stores c) with
               | None => StateError FileNotFoundError
               | Some _ => ValueError
               end),
       mk_AppContext (stores c)
         (session_added c
          ++ [Race.mk (Race.id r) (Race.start_time r) (Some now)
                (Race.boat_name r) (Race.start_pos_lat r)
                (Race.start_pos_lng r)]))).
  { intros r [[[h |] d ws] added]; reflexivity. }
  assert (Hstart : forall now0 ctx0 race,
    start_new_race now0 ctx0 = (Returned race, ctx) ->
    hot (stores ctx) <> None).
  { intros now0 [[[h |] d ws] added] race E; cbn in E; inversion E.
    cbn. discriminate. }
  destruct ctx as [[[h |] d ws] added].
  - exists ValueError. eexists. split; [apply Hstop |]. cbn [stores hot].
    repeat split; intros; try reflexivity; discriminate.
  - exists (StateError FileNotFoundError). eexists.
    split; [apply Hstop |]. cbn [stores hot].
    repeat split; intros; try reflexivity; try discriminate; try congruence.
    exfalso. eapply Hstart; [eassumption | reflexivity].
Qed.

End Engine.

(** ** Worked examples *)

(** The scenario of the specification with a remember delay of 60 s:
    samples at 0 s, 30 s and 90 s are saved permanently, temporarily and
    permanently; the hot slot follows each of them and the durable log
    ends with two records. *)
Example remember_delay_scenario :
  let ing := ingest example_geodesic_km example_geodesic_m example_radius
               example_delay in
  let w0 := mk_World None [] [] in
  let '(r1, w1) := ing (example_sample 0 0 0) w0 in
  let '(r2, w2) := ing (example_sample 30 0 0) w1 in
  let '(r3, w3) := ing (example_sample 90 0 0) w2 in
  (r1, r2, r3) = (Ok PERM_SAVED, Ok TEMP_SAVED, Ok PERM_SAVED)
  /\ option_map created_at (hot w2) = Some 30000000
  /\ map created_at (durable w3) = [0; 90000000].
Proof. vm_compute. repeat split. Qed.

(** [set_point] then [remove_point] leaves the hot State with no anchor
    and no laps. *)
Example set_then_remove_point :
  let w0 := mk_World (Some (example_state 0 2 3)) [] [] in
  let w1 := snd (set_point w0) in
  let w2 := snd (remove_point w1) in
  option_map lapAnchor (hot w1) = Some (Some (PyFloat.of_int 2, PyFloat.of_int 3))
  /\ option_map lapAnchor (hot w2) = Some None
  /\ option_map laps (hot w2) = Some 0.
Proof. vm_compute. repeat split. Qed.

(** C2. The denominator of the speed is not the elapsed time in hours
    floored at 1: it is computed from the seconds field of the elapsed
    timedelta.  For a sample one second older than the previous State the
    field is 86399 and the denominator 86399/3600, where the elapsed time
    floored at one hour gives 1; for a sample 26 hours newer the field is
    7200 and the denominator 2, where the elapsed time gives 26. *)
Theorem speed_denominator_uses_seconds_field :
  let derive_ := derive example_geodesic_km example_geodesic_m example_radius in
  let d24 := PyFloat.of_int 24 in
  (let prev := example_state 1 0 0 in
   let sample := example_sample 0 0 1 in
   Datetime.sub (Telemetry.created_at sample) (created_at prev)
   = Datetime.mk_timedelta (-1) 86399 0
   /\ PyFloat.max (delta (State_of_telemetry sample) prev) PyFloat.one
      = PyFloat.int_truediv 86399 3600
   /\ deltaHours_spec (Telemetry.created_at sample) (created_at prev)
      = PyFloat.one
   /\ example_geodesic_km (position prev) (position (State_of_telemetry sample))
      = d24
   /\ speed (derive_ sample (Some prev))
      = PyFloat.div d24 (PyFloat.int_truediv 86399 3600)
   /\ speed (derive_ sample (Some prev)) <> PyFloat.div d24 PyFloat.one)
  /\ (let prev := example_state 0 0 0 in
      let sample := example_sample 93600 0 1 in
      Datetime.sub (Telemetry.created_at sample) (created_at prev)
      = Datetime.mk_timedelta 1 7200 0
      /\ PyFloat.max (delta (State_of_telemetry sample) prev) PyFloat.one
         = PyFloat.of_int 2
      /\ deltaHours_spec (Telemetry.created_at sample) (created_at prev)
         = PyFloat.of_int 26
      /\ speed (derive_ sample (Some prev)) = PyFloat.of_int 12
      /\ speed (derive_ sample (Some prev))
         <> PyFloat.div d24 (PyFloat.of_int 26)).
Proof. vm_compute. repeat split; discriminate. Qed.

(** ** The stand-in distance meets the contract of GeoMath *)

Lemma float_same_refl (x : float) : float_same x x = true.
Proof.
  destruct x as [[] | [] | | [] m e]; cbn;
    rewrite ?Pos.eqb_refl, ?Z.eqb_refl; reflexivity.
Qed.

Lemma float_same_sym (x y : float) : float_same x y = float_same y x.
Proof.
  destruct x as [[] | [] | | [] m e], y as [[] | [] | | [] n f]; cbn;
    try reflexivity; now rewrite (Pos.eqb_sym m n), (Z.eqb_sym e f).
Qed.

Lemma example_geodesic_km_sym (a b : coord) :
  example_geodesic_km a b = example_geodesic_km b a.
Proof.
  unfold example_geodesic_km, coord_same.
  now rewrite (float_same_sym (fst a)), (float_same_sym (snd a)).
Qed.

Lemma example_geodesic_km_refl (a : coord) :
  example_geodesic_km a a = PyFloat.zero.
Proof.
  unfold example_geodesic_km, coord_same.
  now rewrite !float_same_refl.
Qed.

Lemma example_geodesic_km_nonneg (a b : coord) :
  PyFloat.nonneg (example_geodesic_km a b).
Proof.
  unfold example_geodesic_km.
  destruct (coord_same a b); [exact I | split; reflexivity].
Qed.

(** ** The claims at concrete inputs *)

Lemma laps_incremented_iff_crossed_witness :
  laps (derive example_geodesic_km example_geodesic_m example_radius
          (example_sample 10 1 1) (Some (example_anchored 0 0 0))) = 1
  /\ laps (derive example_geodesic_km example_geodesic_m example_radius
             (example_sample 10 1 1) (Some (example_anchored 0 1 1))) = 0.
Proof.
  split.
  - exact (proj1 (laps_incremented_iff_crossed example_geodesic_km
                    example_geodesic_m example_radius
                    (example_sample 10 1 1) (example_anchored 0 0 0))).
  - exact (proj1 (laps_incremented_iff_crossed example_geodesic_km
                    example_geodesic_m example_radius
                    (example_sample 10 1 1) (example_anchored 0 1 1))).
Defined.

Lemma distance_travelled_accumulates_witness :
  distance_travelled
    (derive example_geodesic_km example_geodesic_m example_radius
       (example_sample 10 0 1) (Some (example_state 0 0 0)))
  = PyFloat.add PyFloat.zero (PyFloat.of_int 24)
  /\ speed
       (derive example_geodesic_km example_geodesic_m example_radius
          (example_sample 10 0 0) (Some (example_state 0 0 0)))
     = PyFloat.zero.
Proof.
  split.
  - exact (proj1 (distance_travelled_accumulates example_geodesic_km
                    example_geodesic_m example_radius
                    (example_sample 10 0 1) (example_state 0 0 0)
                    example_geodesic_km_sym example_geodesic_km_refl)).
  - exact (proj1 (proj2 (distance_travelled_accumulates example_geodesic_km
                    example_geodesic_m example_radius
                    (example_sample 10 0 0) (example_state 0 0 0)
                    example_geodesic_km_sym example_geodesic_km_refl)
                    eq_refl)).
Defined.

Lemma save_durable_iff_due_witness :
  exists status w',
    ingest example_geodesic_km example_geodesic_m example_radius example_delay
      (example_sample 90 0 0)
      (mk_World (Some (example_state 30 0 0)) [example_state 0 0 0] [])
    = (Ok status, w')
    /\ (status = PERM_SAVED
        <-> durable_due example_delay (example_sample 90 0 0)
              [example_state 0 0 0]).
Proof.
  destruct (save_durable_iff_due example_geodesic_km example_geodesic_m
              example_radius example_delay (example_sample 90 0 0)
              (example_state 30 0 0) [example_state 0 0 0] [])
    as (status & w' & H1 & H2 & _).
  exists status, w'. split; assumption.
Defined.

Lemma hot_overwritten_iff_newer_witness :
  exists status w',
    ingest example_geodesic_km example_geodesic_m example_radius example_delay
      (example_sample 40 0 0)
      (mk_World (Some (example_state 30 0 0)) [example_state 0 0 0] [])
    = (Ok status, w')
    /\ (created_at (example_state 30 0 0)
        < Telemetry.created_at (example_sample 40 0 0) ->
        hot w'
        = Some (derive example_geodesic_km example_geodesic_m example_radius
                  (example_sample 40 0 0) (Some (example_state 30 0 0)))).
Proof.
  destruct (hot_overwritten_iff_newer example_geodesic_km example_geodesic_m
              example_radius example_delay (example_sample 40 0 0)
              (example_state 30 0 0) [example_state 0 0 0] [])
    as (status & w' & H1 & _ & H2 & _).
  exists status, w'. split; assumption.
Defined.

Lemma not_found_iff_hot_empty_witness :
  fst (get_current_state (mk_World None [] [])) = Raise FileNotFoundError
  /\ fst (remove_point (mk_World (Some (example_state 0 0 0)) [] []))
     <> Raise FileNotFoundError.
Proof.
  split.
  - apply (proj1 (not_found_iff_hot_empty (mk_World None [] []))).
    reflexivity.
  - intros H.
    apply (proj1 (proj2 (proj2 (proj2
             (not_found_iff_hot_empty
                (mk_World (Some (example_state 0 0 0)) [] [])))))) in H.
    discriminate H.
Defined.

Lemma laps_and_distance_never_decrease_witness :
  let s0 := example_anchored 0 0 0 in
  let samples := [example_sample 10 1 1; example_sample 20 2 2;
                  example_sample 30 1 1] in
  let run := s0 :: derive_all example_geodesic_km example_geodesic_m
                     example_radius s0 samples in
  map laps run = [0; 1; 1; 2]
  /\ (forall before a between b after,
        run = before ++ a :: between ++ b :: after ->
        laps a <= laps b
        /\ PyFloat.leb (distance_travelled a) (distance_travelled b) = true).
Proof.
  split; [reflexivity |].
  apply (laps_and_distance_never_decrease example_geodesic_km
           example_geodesic_m example_radius (example_anchored 0 0 0)
           [example_sample 10 1 1; example_sample 20 2 2; example_sample 30 1 1]
           example_geodesic_km_nonneg).
  - cbn. lia.
  - exact I.
Defined.

Lemma stale_sample_writes_nothing_witness :
  ingest example_geodesic_km example_geodesic_m example_radius example_delay
    (example_sample 20 0 0)
    (mk_World (Some (example_state 30 0 0)) [example_state 0 0 0] [])
  = (Ok TEMP_SAVED,
     mk_World (Some (example_state 30 0 0)) [example_state 0 0 0] []).
Proof.
  apply (stale_sample_writes_nothing example_geodesic_km example_geodesic_m
           example_radius example_delay (example_sample 20 0 0)
           (example_state 30 0 0) (example_state 0 0 0)).
  - cbn. lia.
  - reflexivity.
  - cbn. lia.
Defined.

(** ** The further properties at concrete inputs *)

Lemma operator_calls_leave_durable_log_witness :
  durable
    (run_calls example_geodesic_km example_geodesic_m example_radius
       example_delay [CallSetPoint; CallResetDistance; CallRemovePoint]
       (mk_World (Some (example_state 0 2 3)) [example_state 0 2 3] []))
  = [example_state 0 2 3].
Proof.
  exact (proj1 (operator_calls_leave_durable_log example_geodesic_km
                  example_geodesic_m example_radius example_delay
                  [CallSetPoint; CallResetDistance; CallRemovePoint]
                  (mk_World (Some (example_state 0 2 3)) [example_state 0 2 3] [])
                  eq_refl)).
Defined.

Lemma no_lap_right_after_set_point_witness :
  exists h1,
    hot (snd (set_point (mk_World (Some (example_state 0 2 3)) [] []))) = Some h1
    /\ lapAnchor h1 = Some (position (example_state 0 2 3))
    /\ laps (derive example_geodesic_km example_geodesic_m example_radius
               (example_sample 10 5 5) (Some h1)) = 0.
Proof.
  destruct (no_lap_right_after_set_point example_geodesic_km example_geodesic_m
              example_radius (example_state 0 2 3) [] [] (example_sample 10 5 5)
              eq_refl) as (h1 & H1 & H2 & H3 & _).
  exists h1. repeat split; assumption.
Defined.

Lemma durable_log_stays_spaced_witness :
  spaced example_delay
    (durable
       (run_calls example_geodesic_km example_geodesic_m example_radius
          example_delay
          [CallIngest (example_sample 0 0 0); CallIngest (example_sample 30 0 1);
           CallSetPoint; CallIngest (example_sample 90 0 0)]
          empty_world)).
Proof.
  apply (durable_log_stays_spaced example_geodesic_km example_geodesic_m
           example_radius example_delay).
  - reflexivity.
  - exact I.
Defined.

Lemma speed_is_distance_within_an_hour_witness :
  speed
    (update_from_previous example_geodesic_km example_geodesic_m example_radius
       (example_state 10 0 1) (example_state 0 0 0))
  = PyFloat.of_int 24.
Proof.
  apply (speed_is_distance_within_an_hour example_geodesic_km example_geodesic_m
           example_radius (example_state 10 0 1) (example_state 0 0 0)).
  - cbn. lia.
  - reflexivity.
Defined.

Lemma derived_state_ignores_whole_days_witness :
  speed
    (update_from_previous example_geodesic_km example_geodesic_m example_radius
       (example_state (10 + 86400) 0 1) (example_state 0 0 0))
  = speed
      (update_from_previous example_geodesic_km example_geodesic_m example_radius
         (example_state 10 0 1) (example_state 0 0 0)).
Proof.
  apply (derived_state_ignores_whole_days example_geodesic_km example_geodesic_m
           example_radius (example_state 10 0 1) (example_state (10 + 86400) 0 1)
           (example_state 0 0 0) 1).
  - reflexivity.
  - reflexivity.
Defined.


Lemma start_new_race_uses_hot_position_witness :
  exists race,
    fst (start_new_race 7
           (mk_AppContext (mk_World (Some (example_state 0 2 3)) [] []) []))
    = Returned race
    /\ Race.start_pos_lat race = Some (PyFloat.of_int 2)
    /\ Race.start_pos_lng race = Some (PyFloat.of_int 3).
Proof.
  destruct (proj2 (start_new_race_uses_hot_position 7
                     (mk_AppContext (mk_World (Some (example_state 0 2 3)) [] []) []))
              (example_state 0 2 3) eq_refl)
    as (race & E & _ & H1 & H2 & _).
  exists race. rewrite E. repeat split; assumption.
Defined.
